(** * Sapien staking-multiplier plotting script: a shallow embedding

    The program under study is [notes/plot_from_csv.py]: a loader
    ([read_multiplier_data]), a renderer ([create_multiplier_charts]) that first
    derives the [multiplier_decimal] column and then draws three charts, a text
    extractor ([parse_forge_output]) and the top-level flow ([main]).

    Modelling choices.
    - Text is a sequence of code points below 256 (Rocq's [string]); the
      Python [str] methods used by the script are written out on it.
    - A table holds the three integer (int64) columns of the CSV row by row and,
      once derived, the float64 column [multiplier_decimal].
    - float64 values are IEEE-754 binary64 numbers ([spec_float] at precision
      53, maximal exponent 1024) with round-to-nearest-even operations.
    - Effects (the caller's table object, printed lines, pyplot calls, the
      sources read) are threaded through a state-and-exception monad. *)

From Stdlib Require Import ZArith String Ascii List Bool Lia.
From Stdlib Require Import Sorting.Permutation Sorting.Sorted.
From Stdlib Require Import Floats.SpecFloat Numbers.DecimalString.
From stdpp Require Import gmap strings.

Import ListNotations.
Local Open Scope Z_scope.

(** ** Python [str] methods *)

Module Str.

Definition newline : ascii := ascii_of_nat 10.
Definition comma : ascii := ascii_of_nat 44.
Definition space : ascii := ascii_of_nat 32.
Definition dot : ascii := ascii_of_nat 46.

(** [c.isspace()] for a code point below 256: TAB..CR, FS..US and space,
    NEL (U+0085) and the no-break space (U+00A0). *)
Definition isspace (c : ascii) : bool :=
  let n := N_of_ascii c in
  ((9 <=? n) && (n <=? 13) || (28 <=? n) && (n <=? 32) || (n =? 133) || (n =? 160))%N.

(** [c.isdigit()] for a code point below 256: the decimal digits and the
    superscripts two, three and one (U+00B2, U+00B3, U+00B9). *)
Definition isdigit_char (c : ascii) : bool :=
  let n := N_of_ascii c in
  ((48 <=? n) && (n <=? 57) || (n =? 178) || (n =? 179) || (n =? 185))%N.

Fixpoint lstrip (s : string) : string :=
  match s with
  | EmptyString => EmptyString
  | String c s' => if isspace c then lstrip s' else s
  end.

Fixpoint rstrip (s : string) : string :=
  match s with
  | EmptyString => EmptyString
  | String c s' =>
      match rstrip s' with
      | EmptyString => if isspace c then EmptyString else String c EmptyString
      | r => String c r
      end
  end.

(** [s.strip()] *)
Definition strip (s : string) : string := lstrip (rstrip s).

(** [s.split(sep)] for a one-character separator: never the empty list. *)
Fixpoint split (sep : ascii) (s : string) : list string :=
  match s with
  | EmptyString => [EmptyString]
  | String c s' =>
      if Ascii.eqb c sep then EmptyString :: split sep s'
      else match split sep s' with
           | h :: t => String c h :: t
           | [] => [String c EmptyString]
           end
  end.

(** [s.replace(c, '')] for a one-character [c]. *)
Fixpoint remove (c : ascii) (s : string) : string :=
  match s with
  | EmptyString => EmptyString
  | String d s' => if Ascii.eqb d c then remove c s' else String d (remove c s')
  end.

(** [c in s] for a one-character [c]. *)
Fixpoint contains (c : ascii) (s : string) : bool :=
  match s with
  | EmptyString => false
  | String d s' => Ascii.eqb d c || contains c s'
  end.

Fixpoint all_chars (p : ascii -> bool) (s : string) : bool :=
  match s with
  | EmptyString => true
  | String c s' => p c && all_chars p s'
  end.

(** [s.isdigit()]: at least one character, and all of them digits. *)
Definition isdigit (s : string) : bool :=
  match s with
  | EmptyString => false
  | _ => all_chars isdigit_char s
  end.

(** [sep.join(parts)] for a one-character [sep]. *)
Definition join (sep : ascii) (parts : list string) : string :=
  String.concat (String sep EmptyString) parts.

(** Lines of a text literal, joined by newlines (for writing examples). *)
Definition text (lines : list string) : string := join newline lines.

End Str.

(** ** The extractor: [parse_forge_output] *)

Definition header : string := "tokens,lockup_days,multiplier".

(** The two tests of the loop body, in the order the source makes them. *)
Definition looks_numeric (line : string) : bool :=
  Str.contains Str.comma line
  && Str.isdigit (Str.remove Str.space (Str.remove Str.comma line)).

Definition is_header (line : string) : bool :=
  String.eqb (Str.strip line) header.

(** One iteration of [for line in lines], on the accumulator [csv_lines]. *)
Definition scan_line (csv_lines : list string) (line : string) : list string :=
  if looks_numeric line then csv_lines ++ [Str.strip line]
  else if is_header line then csv_lines ++ [Str.strip line]
  else csv_lines.

Definition parse_forge_output (forge_output_text : string) : string :=
  let lines := Str.split Str.newline (Str.strip forge_output_text) in
  let csv_lines := fold_left scan_line lines [] in
  Str.join Str.newline csv_lines.

(** A line is kept when either test of the loop body succeeds. *)
Definition keeps (line : string) : bool := looks_numeric line || is_header line.

(** The extractor as the specification words it: a line is kept when it is the
    literal header or when, commas and spaces removed, it consists of digits. *)
Definition spec_keeps (line : string) : bool :=
  String.eqb line header
  || Str.isdigit (Str.remove Str.space (Str.remove Str.comma line)).

Definition spec_parse_forge_output (forge_output_text : string) : string :=
  Str.join Str.newline (List.filter spec_keeps (Str.split Str.newline forge_output_text)).

(** ** float64 arithmetic *)

Module F64.

Definition prec : Z := 53.
Definition emax : Z := 1024.

Abbreviation float := spec_float.

Definition nan : float := S754_nan.

(** Conversion of an integer, rounding to nearest even (exact below 2^53). *)
Definition of_int (z : Z) : float := binary_normalize prec emax z 0 false.

Definition add : float -> float -> float := SFadd prec emax.
Definition sub : float -> float -> float := SFsub prec emax.
Definition mul : float -> float -> float := SFmul prec emax.
Definition div : float -> float -> float := SFdiv prec emax.

(** Python's [==] on floats: false as soon as one side is NaN. *)
Definition eqb : float -> float -> bool := SFeqb.

(** The float denoted by the decimal literal [m / 10^k], e.g. [1.05] is
    [literal 105 2]: one correctly rounded division of two exact integers. *)
Definition literal (m : Z) (k : nat) : float := div (of_int m) (of_int (10 ^ Z.of_nat k)).

Definition isfinite (x : float) : bool :=
  match x with
  | S754_zero _ | S754_finite _ _ _ => true
  | S754_infinity _ | S754_nan => false
  end.

Definition isnan (x : float) : bool :=
  match x with S754_nan => true | _ => false end.

(** [int(x)]: truncation toward zero; [None] for NaN and the infinities. *)
Definition to_int (x : float) : option Z :=
  match x with
  | S754_zero _ => Some 0
  | S754_finite s m e =>
      let a := if 0 <=? e then Z.pos m * 2 ^ e else Z.pos m / 2 ^ (- e) in
      Some (if s then - a else a)
  | S754_infinity _ | S754_nan => None
  end.

(** [num / den] rounded to the nearest integer, ties to even ([0 < den]). *)
Definition round_half_even (num den : Z) : Z :=
  let q := num / den in
  let r := num mod den in
  match 2 * r ?= den with
  | Lt => q
  | Gt => q + 1
  | Eq => if Z.even q then q else q + 1
  end.

Definition str_of_Z (z : Z) : string := DecimalString.NilZero.string_of_int (Z.to_int z).

Fixpoint zeros (n : nat) : string :=
  match n with
  | O => EmptyString
  | S n' => String "0" (zeros n')
  end.

(** The digits of the non-negative integer [n] with a point before the last
    [d] of them, padded with zeros on the left as [%.<d>f] prints them. *)
Definition fixed_digits (d : nat) (n : Z) : string :=
  let s := str_of_Z n in
  let s := String.append (zeros (S d - String.length s)) s in
  let k := (String.length s - d)%nat in
  match d with
  | O => s
  | _ => String.append (substring 0 k s) (String "." (substring k d s))
  end.

(** [format(x, '.<d>f')]: the exact binary value, correctly rounded to [d]
    decimals (ties to even), with the sign of [x]. *)
Definition format_fixed (d : nat) (x : float) : string :=
  match x with
  | S754_nan => "nan"
  | S754_infinity s => if s then "-inf" else "inf"
  | S754_zero s => String.append (if s then "-" else "") (fixed_digits d 0)
  | S754_finite s m e =>
      let scaled := Z.pos m * 10 ^ Z.of_nat d in
      let n := if 0 <=? e then scaled * 2 ^ e else round_half_even scaled (2 ^ (- e)) in
      String.append (if s then "-" else "") (fixed_digits d n)
  end.

End F64.

Abbreviation float := spec_float.

(** ** Tables *)

(** One record of the CSV: three int64 cells. *)
Record Row := mkRow { tokens : Z; lockup_days : Z; multiplier : Z }.

(** A [DataFrame] object: the rows read from the CSV and, when it has been
    assigned, the float64 column [multiplier_decimal] (one value per row). *)
Record DataFrame := mkFrame {
  rows : list Row;
  multiplier_decimal : option (list float)
}.

(** [df[name]] for one of the integer columns. *)
Definition column (f : Row -> Z) (df : DataFrame) : list Z := map f (rows df).

(** [len(df)] *)
Definition row_count (df : DataFrame) : nat := length (rows df).

(** Boolean indexing [xs[mask]] on one column. *)
Fixpoint select {A} (mask : list bool) (xs : list A) : list A :=
  match mask, xs with
  | b :: mask', x :: xs' => if b then x :: select mask' xs' else select mask' xs'
  | _, _ => []
  end.

(** Positional selection [xs.take(idx)], for positions inside [xs] (those
    of [argsort] are). *)
Fixpoint take_at {A} (idx : list nat) (xs : list A) : list A :=
  match idx with
  | [] => []
  | i :: idx' =>
      match xs !! i with
      | Some x => x :: take_at idx' xs
      | None => take_at idx' xs
      end
  end.

(** [df[mask]]: a new frame holding the selected rows of every column. *)
Definition frame_select (mask : list bool) (df : DataFrame) : DataFrame :=
  {| rows := select mask (rows df);
     multiplier_decimal := select mask <$> multiplier_decimal df |}.

Definition frame_take (idx : list nat) (df : DataFrame) : DataFrame :=
  {| rows := take_at idx (rows df);
     multiplier_decimal := take_at idx <$> multiplier_decimal df |}.

(** Insertion of [x] after the elements whose key is smaller, so before
    those with the same key. *)
Fixpoint insert_by {A} (key : A -> Z) (x : A) (l : list A) : list A :=
  match l with
  | [] => [x]
  | y :: l' => if key y <? key x then y :: insert_by key x l' else x :: l
  end.

(** Sorting by a key, ascending and stable: elements with equal keys keep
    the order they had. Python's [sorted] promises that; numpy's default sort,
    behind [sort_values], keeps that order on short columns and does not
    promise it on long ones, so the statements below that give the rows of a
    chart in order are for rows with distinct token amounts. *)
Definition sort_by {A} (key : A -> Z) (l : list A) : list A :=
  foldr (insert_by key) [] l.

(** [sorted(xs)] on integers. *)
Definition sorted (xs : list Z) : list Z := sort_by id xs.

(** [keys.argsort()]: the positions of [keys] in ascending key order. *)
Definition argsort (keys : list Z) : list nat :=
  map snd (sort_by fst (combine keys (seq 0 (length keys)))).

(** A pair (key, position), as [argsort] sorts them, describes an element of
    [l] when that element is at the position and has the key. *)
Definition describes {A} (key : A -> Z) (l : list A) (p : Z * nat) : Prop :=
  exists x, l !! p.2 = Some x /\ key x = p.1.

(** [df.sort_values('tokens')] *)
Definition sort_values_tokens (df : DataFrame) : DataFrame :=
  frame_take (argsort (column tokens df)) df.

(** [xs.unique()]: the distinct values in order of first appearance. *)
Fixpoint unique_from (seen : list Z) (xs : list Z) : list Z :=
  match xs with
  | [] => []
  | x :: xs' =>
      if existsb (Z.eqb x) seen then unique_from seen xs'
      else x :: unique_from (x :: seen) xs'
  end.

Definition unique (xs : list Z) : list Z := unique_from [] xs.

(** A numpy scalar: [max()] and [min()] of an int64 column give an int64, or
    the float NaN when the column is empty. *)
Inductive scalar := IntS (z : Z) | FloatS (f : float).

Definition series_max (xs : list Z) : scalar :=
  match xs with
  | [] => FloatS F64.nan
  | x :: xs' => IntS (fold_left Z.max xs' x)
  end.

Definition series_min (xs : list Z) : scalar :=
  match xs with
  | [] => FloatS F64.nan
  | x :: xs' => IntS (fold_left Z.min xs' x)
  end.

Definition scalar_float (v : scalar) : float :=
  match v with
  | IntS z => F64.of_int z
  | FloatS f => f
  end.

(** [str(v)] as an f-string prints it, for the two values [max()] can give. *)
Definition scalar_str (v : scalar) : string :=
  match v with
  | IntS z => F64.str_of_Z z
  | FloatS _ => "nan"
  end.

(** int64 arithmetic wraps around. *)
Definition wrap64 (z : Z) : Z := (z + 2 ^ 63) mod 2 ^ 64 - 2 ^ 63.

(** [col / k] on an int64 column: true division, a float64 column. *)
Definition truediv (col : list Z) (k : Z) : list float :=
  map (fun m => F64.div (F64.of_int m) (F64.of_int k)) col.

(** [col - k] on an int64 column. *)
Definition sub_scalar (col : list Z) (k : Z) : list Z :=
  map (fun m => wrap64 (m - k)) col.

(** ** Exceptions, the world and the monad *)

Inductive exn :=
| ValueError (msg : string)
| FileNotFoundError (path : string)
| UnboundLocalError (name : string)
| IndexError (msg : string)
| KeyError (key : string)
| OverflowError (msg : string)
| SystemError (msg : string)
| EmptyDataError (msg : string)   (* pandas.errors.EmptyDataError *)
| Unmodelled (why : string).      (* no exception: an input outside this model *)

Inductive result (A : Type) :=
| Ok (a : A)
| Raise (e : exn).
Arguments Ok {A} a.
Arguments Raise {A} e.

(** What the loader can read from. *)
Inductive source :=
| FromFile (path : string)
| FromText (content : string).

(** Calls into [matplotlib.pyplot], with the data they are given. Calls that
    only style a figure are recorded by name. *)
Inductive plt_call :=
| plt_figure (w h : Z)
| plt_plot (xs : list Z) (ys : list float) (color : string) (label : option string)
| plt_xlim (lo hi : float)
| plt_ylim (lo hi : float)
| plt_axhline (y : float) (color label : string)
| plt_subplot (nrows ncols i : Z)
| plt_table (cellText : list (list string)) (colLabels : list string)
| plt_imshow (grid : list (list float))
| plt_xticks (ticks : list nat) (labels : list Z)
| plt_yticks (ticks : list nat) (labels : list Z)
| plt_text (x y : nat) (s : string)
| plt_style (call : string)
| plt_show.

Definition loc := nat.

Record world := mkWorld {
  files : gmap string string;     (* the file system: path to content *)
  heap : gmap loc DataFrame;      (* the DataFrame objects, by identity *)
  stdout : list string;           (* printed lines, oldest first *)
  canvas : list plt_call;         (* pyplot calls, oldest first *)
  consumed : list source          (* sources handed to the CSV reader *)
}.

Definition M (A : Type) : Type := world -> result A * world.

#[global] Instance M_ret : MRet M := fun A a w => (Ok a, w).
#[global] Instance M_bind : MBind M := fun A B f m w =>
  match m w with
  | (Ok a, w') => f a w'
  | (Raise e, w') => (Raise e, w')
  end.

Definition raise {A} (e : exn) : M A := fun w => (Raise e, w).

(** [try: body except <handled>: handler] *)
Definition try_except {A} (body : M A) (handles : exn -> bool) (handler : M A) : M A :=
  fun w =>
    match body w with
    | (Raise e, w') => if handles e then handler w' else (Raise e, w')
    | ok => ok
    end.

Definition lift {A} (r : result A) : M A := fun w => (r, w).

Definition print (line : string) : M unit := fun w =>
  (Ok tt, mkWorld (files w) (heap w) (stdout w ++ [line]) (canvas w) (consumed w)).

Definition plt (c : plt_call) : M unit := fun w =>
  (Ok tt, mkWorld (files w) (heap w) (stdout w) (canvas w ++ [c]) (consumed w)).

Definition consume (s : source) : M unit := fun w =>
  (Ok tt, mkWorld (files w) (heap w) (stdout w) (canvas w) (consumed w ++ [s])).

Definition read_file (path : string) : M string := fun w =>
  match files w !! path with
  | Some content => (Ok content, w)
  | None => (Raise (FileNotFoundError path), w)
  end.

(** A new object, at an identity no live object has. *)
Definition alloc (df : DataFrame) : M loc := fun w =>
  let r := fresh (dom (heap w)) in
  (Ok r, mkWorld (files w) (<[r := df]> (heap w)) (stdout w) (canvas w) (consumed w)).

Definition deref (r : loc) : M DataFrame := fun w =>
  match heap w !! r with
  | Some df => (Ok df, w)
  | None => (Raise (SystemError "dangling reference"), w)
  end.

Definition store (r : loc) (df : DataFrame) : M unit := fun w =>
  (Ok tt, mkWorld (files w) (<[r := df]> (heap w)) (stdout w) (canvas w) (consumed w)).

(** [for x in xs: body x] *)
Fixpoint for_each {A} (xs : list A) (body : A -> M unit) : M unit :=
  match xs with
  | [] => mret tt
  | x :: xs' => body x ;; for_each xs' body
  end.

(** [enumerate(xs)] *)
Definition enumerate {A} (xs : list A) : list (nat * A) :=
  combine (seq 0 (length xs)) xs.

(** [xs[i]] on a Python list, for [i >= 0]. *)
Definition list_index {A} (xs : list A) (i : nat) : M A :=
  match xs !! i with
  | Some x => mret x
  | None => raise (IndexError "list index out of range")
  end.

(** [frame['multiplier_decimal']] *)
Definition getitem_decimal (df : DataFrame) : M (list float) :=
  match multiplier_decimal df with
  | Some col => mret col
  | None => raise (KeyError "multiplier_decimal")
  end.

(** [plt.xlim(0, hi)]: matplotlib refuses a limit that is NaN or infinite. *)
Definition xlim (hi : float) : M unit :=
  if F64.isfinite hi then plt (plt_xlim (F64.of_int 0) hi)
  else raise (ValueError "Axis limits cannot be NaN or Inf").

(** [int(x)] on a float. *)
Definition int_of_float (x : float) : M Z :=
  match F64.to_int x with
  | Some z => mret z
  | None =>
      if F64.isnan x then raise (ValueError "cannot convert float NaN to integer")
      else raise (OverflowError "cannot convert float infinity to integer")
  end.

(** ** The renderer: [create_multiplier_charts] *)

Definition palette : list string := ["gray"; "blue"; "green"; "orange"; "black"]%string.

Definition base_multiplier : Z := 10000.

(** Line 25: [df['multiplier_decimal'] = df['multiplier'] / 10000], an
    assignment into the caller's object. *)
Definition derive (r : loc) : M unit :=
  df ← deref r;
  store r (mkFrame (rows df) (Some (truediv (column multiplier df) 10000))).

(** [df[df['lockup_days'] == lockup].sort_values('tokens')] *)
Definition lockup_slice (lockup : Z) (df : DataFrame) : DataFrame :=
  sort_values_tokens (frame_select (map (fun d => d =? lockup) (column lockup_days df)) df).

(** [df[col].max() * 1.05] *)
Definition upper_limit (col : list Z) : float :=
  F64.mul (scalar_float (series_max col)) (F64.literal 105 2).

(** Lines 27-55: one line per lockup period. *)
Definition line_chart (r : loc) : M unit :=
  df ← deref r;
  plt (plt_figure 14 10);;
  let lockup_periods := sorted (unique (column lockup_days df)) in
  let colors := firstn (length lockup_periods) palette in
  for_each (enumerate lockup_periods) (fun '(i, lockup) =>
    let data := lockup_slice lockup df in
    ys ← getitem_decimal data;
    color ← list_index colors i;
    plt (plt_plot (column tokens data) ys color
           (Some (String.append (F64.str_of_Z lockup) " days"))));;
  plt (plt_style "xlabel");;
  plt (plt_style "ylabel");;
  plt (plt_style "title");;
  plt (plt_style "legend");;
  plt (plt_style "grid");;
  xlim (upper_limit (column tokens df));;
  plt (plt_ylim (F64.literal 10 1) (F64.literal 16 1));;
  plt (plt_axhline (F64.literal 10 1) "gray" "Base (1.0x)");;
  plt (plt_axhline (F64.literal 15 1) "black" "Max (1.5x)");;
  plt (plt_style "tight_layout");;
  plt plt_show.

(** The row Series that [iterrows()] yields: the cells of one row under one
    dtype, so with a float64 column in the frame every cell is a float64. *)
Record RowSeries := mkRowSeries {
  cell_tokens : scalar;
  cell_lockup_days : scalar;
  cell_multiplier : scalar;
  cell_multiplier_decimal : option float
}.

Definition iterrows (df : DataFrame) : list RowSeries :=
  match multiplier_decimal df with
  | None =>
      map (fun row => mkRowSeries (IntS (tokens row)) (IntS (lockup_days row))
                        (IntS (multiplier row)) None) (rows df)
  | Some col =>
      map (fun '(row, d) =>
             mkRowSeries (FloatS (F64.of_int (tokens row))) (FloatS (F64.of_int (lockup_days row)))
               (FloatS (F64.of_int (multiplier row))) (Some d))
          (combine (rows df) col)
  end.

(** [int(v)] *)
Definition scalar_int (v : scalar) : M Z :=
  match v with
  | IntS z => mret z
  | FloatS f => int_of_float f
  end.

(** [v - k] for a Python int [k] *)
Definition scalar_sub (v : scalar) (k : Z) : scalar :=
  match v with
  | IntS z => IntS (wrap64 (z - k))
  | FloatS f => FloatS (F64.sub f (F64.of_int k))
  end.

(** [v / k] for a Python int [k] *)
Definition scalar_div (v : scalar) (k : Z) : float :=
  F64.div (scalar_float v) (F64.of_int k).

(** The body of [for _, row in df_365.iterrows()]: one line of the table. *)
Definition comparison_row (row : RowSeries) : M (list string) :=
  amount ← scalar_int (cell_tokens row);
  decimal ← match cell_multiplier_decimal row with
            | Some d => mret d
            | None => raise (KeyError "multiplier_decimal")
            end;
  mret [ String.append (F64.str_of_Z amount) " tokens";
         String.append (F64.format_fixed 3 decimal) "x";
         String.append
           (F64.format_fixed 1 (scalar_div (scalar_sub (cell_multiplier row) base_multiplier) 100))
           "%" ]%string.

(** A loop that appends one item per element to a list. *)
Fixpoint collect {A B} (xs : list A) (body : A -> M B) (acc : list B) : M (list B) :=
  match xs with
  | [] => mret acc
  | x :: xs' => y ← body x; collect xs' body (acc ++ [y])
  end.

(** Lines 57-103: the bonus at 365 days, as a curve and as a table. *)
Definition bonus_chart (r : loc) : M unit :=
  df ← deref r;
  plt (plt_figure 14 8);;
  let df_365 := lockup_slice 365 df in
  let total_bonus := sub_scalar (column multiplier df_365) base_multiplier in
  plt (plt_subplot 2 1 1);;
  plt (plt_plot (column tokens df_365) (truediv total_bonus 100) "b-" None);;
  plt (plt_style "xlabel");;
  plt (plt_style "ylabel");;
  plt (plt_style "title");;
  plt (plt_style "grid");;
  xlim (upper_limit (column tokens df_365));;
  plt (plt_subplot 2 1 2);;
  comparison_data ← collect (iterrows df_365) comparison_row [];
  plt (plt_style "axis");;
  plt (plt_style "axis");;
  plt (plt_table comparison_data ["Amount"; "Multiplier"; "Total Bonus"]%string);;
  plt (plt_style "auto_set_font_size");;
  plt (plt_style "set_fontsize");;
  plt (plt_style "scale");;
  plt (plt_style "title");;
  plt (plt_style "tight_layout");;
  plt plt_show.

(** The frame that [pivot] returns. *)
Record Pivot := mkPivot {
  pivot_index : list Z;
  pivot_columns : list Z;
  pivot_values : list (list float)
}.

Definition pair_keys (df : DataFrame) : list (Z * Z) :=
  map (fun row => (tokens row, lockup_days row)) (rows df).

(** [df.pivot(index='tokens', columns='lockup_days', values='multiplier_decimal')].
    pandas marks the cell of every row in a mask and refuses to reshape when
    fewer cells are marked than there are rows; the grid starts filled with NaN
    and every row writes its value into its cell. *)
Definition pivot (df : DataFrame) : result Pivot :=
  match multiplier_decimal df with
  | None => Raise (KeyError "multiplier_decimal")
  | Some col =>
      let keys := pair_keys df in
      let mask : gset (Z * Z) := list_to_set keys in
      if (size mask <? length keys)%nat
      then Raise (ValueError "Index contains duplicate entries, cannot reshape")
      else
        let cells : gmap (Z * Z) float := list_to_map (combine keys col) in
        let index := sorted (unique (column tokens df)) in
        let columns := sorted (unique (column lockup_days df)) in
        Ok (mkPivot index columns
              (map (fun t => map (fun l => default F64.nan (cells !! (t, l))) columns) index))
  end.

(** [values[i, j]] *)
Definition grid_at (values : list (list float)) (i j : nat) : M float :=
  match values !! i with
  | Some line => list_index line j
  | None => raise (IndexError "index out of bounds")
  end.

(** Lines 105-132: the heatmap over tokens and lockup periods. *)
Definition heatmap (r : loc) : M unit :=
  df ← deref r;
  plt (plt_figure 12 8);;
  pivot_df ← lift (pivot df);
  plt (plt_imshow (pivot_values pivot_df));;
  plt (plt_xticks (seq 0 (length (pivot_columns pivot_df))) (pivot_columns pivot_df));;
  plt (plt_yticks (seq 0 (length (pivot_index pivot_df))) (pivot_index pivot_df));;
  plt (plt_style "xlabel");;
  plt (plt_style "ylabel");;
  plt (plt_style "title");;
  plt (plt_style "colorbar");;
  plt (plt_style "set_label");;
  for_each (seq 0 (length (pivot_index pivot_df))) (fun i =>
    for_each (seq 0 (length (pivot_columns pivot_df))) (fun j =>
      v ← grid_at (pivot_values pivot_df) i j;
      plt (plt_text j i (F64.format_fixed 3 v))));;
  plt (plt_style "tight_layout");;
  plt plt_show.

Definition create_multiplier_charts (r : loc) : M unit :=
  derive r;;
  line_chart r;;
  bonus_chart r;;
  heatmap r.

(** ** The loader and the top-level flow *)

Section Program.

(** [pandas.read_csv] on the text of a CSV document: the rows, or the
    exception it raises. *)
Variable read_csv : string -> result (list Row).

(** [repr] of an int64 scalar inside a printed list (it differs between numpy
    versions). *)
Variable repr_int64 : Z -> string.

(** Python truthiness of an optional string argument: [None] and [''] are
    false. *)
Definition truthy (arg : option string) : option string :=
  match arg with
  | Some s => if String.eqb s "" then None else Some s
  | None => None
  end.

(** [pd.read_csv(path)] and [pd.read_csv(io.StringIO(content))] *)
Definition pd_read_csv (src : source) : M loc :=
  consume src;;
  document ← match src with
             | FromFile path => read_file path
             | FromText content => mret content
             end;
  table ← lift (read_csv document);
  alloc (mkFrame table None).

Definition read_multiplier_data (csv_content csv_file : option string) : M loc :=
  match truthy csv_file with
  | Some path => pd_read_csv (FromFile path)
  | None =>
      match truthy csv_content with
      | Some content => pd_read_csv (FromText content)
      | None => raise (ValueError "Must provide either csv_content or csv_file")
      end
  end.

Definition guidance : list string :=
  [ "CSV file not found. Please provide data using one of these methods:";
    "1. Save forge script output to 'multiplier_data.csv'";
    "2. Pipe forge output to this script";
    "3. Use the sample data below" ]%string.

Definition is_FileNotFoundError (e : exn) : bool :=
  match e with FileNotFoundError _ => true | _ => false end.

(** [str(xs)] for a list of int64 scalars. *)
Definition list_str (xs : list Z) : string :=
  String.append "[" (String.append (String.concat ", " (map repr_int64 xs)) "]").

(** The local variable [df]: read where it may not have been assigned. *)
Definition read_local (name : string) (binding : option loc) : M loc :=
  match binding with
  | Some r => mret r
  | None => raise (UnboundLocalError name)
  end.

Definition main : M unit :=
  binding ← try_except
              (r ← read_multiplier_data None (Some "multipliers.csv"%string);
               print "Reading from CSV file...";;
               mret (Some r))
              is_FileNotFoundError
              (for_each guidance print;; mret None);
  r ← read_local "df" binding;
  create_multiplier_charts r;;
  print (String Str.newline "Summary Statistics:");;
  print (String.concat "" (repeat "="%string 50));;
  df ← deref r;
  print ("Token amounts tested: " +:+ list_str (sorted (unique (column tokens df))));;
  print ("Lockup periods tested: " +:+ list_str (sorted (unique (column lockup_days df))) +:+ " days");;
  print ("Multiplier range: " +:+ scalar_str (series_min (column multiplier df))
         +:+ " - " +:+ scalar_str (series_max (column multiplier df)));;
  print ("Max multiplier: "
         +:+ F64.format_fixed 3 (scalar_div (series_max (column multiplier df)) 10000) +:+ "x").

End Program.

(** ** A reader for the CSV dialect of the script

    [pandas.read_csv] is a parameter of the development. To run the loader on
    concrete documents, this reader covers the documents of the contract's
    export: the header line, then lines of three unsigned integers that fit an
    int64, with LF or CRLF line ends and blank lines skipped. On the empty
    document it raises what pandas raises. Every other document is one that
    pandas may well load, into a table with other columns or other cell types
    than this development represents: the reader then answers [Unmodelled]
    and claims nothing about pandas. *)

Definition carriage_return : ascii := ascii_of_nat 13.

(** A line without the carriage return that a CRLF line end leaves on it. *)
Fixpoint drop_cr (line : string) : string :=
  match line with
  | EmptyString => EmptyString
  | String c EmptyString => if Ascii.eqb c carriage_return then EmptyString else line
  | String c rest => String c (drop_cr rest)
  end.

Fixpoint digits_value (s : string) (acc : Z) : option Z :=
  match s with
  | EmptyString => Some acc
  | String c s' =>
      let n := Z.of_N (N_of_ascii c) in
      if (48 <=? n) && (n <=? 57) then digits_value s' (10 * acc + (n - 48)) else None
  end.

Definition parse_int (field : string) : option Z :=
  match field with
  | EmptyString => None
  | _ => z ← digits_value field 0; if z <? 2 ^ 63 then Some z else None
  end.

Definition parse_record (line : string) : option Row :=
  match Str.split Str.comma line with
  | [a; b; c] =>
      t ← parse_int a; l ← parse_int b; m ← parse_int c; Some (mkRow t l m)
  | _ => None
  end.

Definition read_int_csv (document : string) : result (list Row) :=
  if String.eqb document "" then Raise (EmptyDataError "No columns to parse from file")
  else
    match map drop_cr (Str.split Str.newline document) with
    | first :: body =>
        if String.eqb first header then
          match mapM parse_record
                  (List.filter (fun line => negb (String.eqb line "")) body) with
          | Some table => Ok table
          | None => Raise (Unmodelled "a line that is not three unsigned int64 fields")
          end
        else Raise (Unmodelled "a header other than tokens,lockup_days,multiplier")
    | [] => Raise (Unmodelled "no line")
    end.

Definition repr_plain (z : Z) : string := F64.str_of_Z z.

(** ** Sample data *)


(** The 2x2 grid of the specification's examples. *)
Definition grid_rows : list Row :=
  [mkRow 100 30 10000; mkRow 100 365 15000; mkRow 200 30 10050; mkRow 200 365 15200].

Definition grid_csv : string :=
  Str.text ["tokens,lockup_days,multiplier"; "100,30,10000"; "100,365,15000";
            "200,30,10050"; "200,365,15200"]%string.

Definition empty_world : world := mkWorld ∅ ∅ [] [] [].

Definition world_with_table (table : list Row) : world :=
  mkWorld ∅ {[ 0%nat := mkFrame table None ]} [] [] [].

Definition world_with_file (path content : string) : world :=
  mkWorld {[ path := content ]} ∅ [] [] [].

(** ** The bonus, as the specification words it *)

(** [(multiplier - 10000) / 100] on the float64 cell of a row Series. *)
Definition bonus_percent (m : Z) : float :=
  F64.div (F64.sub (F64.of_int m) (F64.of_int 10000)) (F64.of_int 100).


(** The line of the summary table for one row. *)
Definition summary_line (row : Row) : list string :=
  [ String.append (F64.str_of_Z (tokens row)) " tokens";
    String.append
      (F64.format_fixed 3 (F64.div (F64.of_int (multiplier row)) (F64.of_int 10000))) "x";
    String.append (F64.format_fixed 1 (bonus_percent (multiplier row))) "%" ]%string.

(** The rows at 365 days, by ascending token amount. *)
Definition rows_365 (df : DataFrame) : list Row :=
  sort_by tokens (List.filter (fun row => lockup_days row =? 365) (rows df)).

Definition six_lockups : list Row :=
  map (fun days => mkRow 100 days 10000) [1; 2; 3; 4; 5; 6].

(** The table the renderer works on once line 25 has run. *)
Definition derived_frame (table : list Row) : DataFrame :=
  mkFrame table (Some (truediv (map multiplier table) 10000)).

(** The 2x2 grid without its last combination. *)
Definition incomplete_rows : list Row :=
  [mkRow 100 30 10000; mkRow 100 365 15000; mkRow 200 30 10050].

(** ** What a computation may touch *)

(** A computation that only draws: whatever its outcome, it leaves the files,
    the objects, the printed lines and the sources read as they were, and the
    pyplot calls it makes are appended to those made before. *)
Definition only_draws {A} (m : M A) : Prop :=
  forall w,
    files (snd (m w)) = files w
    /\ heap (snd (m w)) = heap w
    /\ stdout (snd (m w)) = stdout w
    /\ consumed (snd (m w)) = consumed w
    /\ exists calls, canvas (snd (m w)) = canvas w ++ calls.

(** A computation that returns a value from every world. *)
Definition succeeds {A} (m : M A) : Prop :=
  forall w, exists a w', m w = (Ok a, w').

(** A computation that returns [a] and changes nothing. *)
Definition returns {A} (m : M A) (a : A) : Prop :=
  forall w, m w = (Ok a, w).

(** The world once line 25 has run on the table [df] held at [r]. *)
Definition after_derive (r : loc) (df : DataFrame) (w : world) : world :=
  mkWorld (files w)
    (<[r := mkFrame (rows df) (Some (truediv (column multiplier df) 10000))]> (heap w))
    (stdout w) (canvas w) (consumed w).

(** What the renderer needs of a table to draw its three charts. *)
Definition renderable (df : DataFrame) : Prop :=
  (length (unique (column lockup_days df)) <= 5)%nat
  /\ Exists (fun row => lockup_days row = 365) (rows df)
  /\ NoDup (pair_keys df).



(** The lines [main] prints after the charts (lines 169-174), for the table
    [df] and the way [repr_int64] prints an int64 inside a list. *)
Definition summary_lines (repr_int64 : Z -> string) (df : DataFrame) : list string :=
  [ String Str.newline "Summary Statistics:";
    String.concat "" (repeat "="%string 50);
    "Token amounts tested: " +:+ list_str repr_int64 (sorted (unique (column tokens df)));
    "Lockup periods tested: " +:+ list_str repr_int64 (sorted (unique (column lockup_days df)))
      +:+ " days";
    "Multiplier range: " +:+ scalar_str (series_min (column multiplier df))
      +:+ " - " +:+ scalar_str (series_max (column multiplier df));
    "Max multiplier: "
      +:+ F64.format_fixed 3 (scalar_div (series_max (column multiplier df)) 10000) +:+ "x" ]%string.

(** The characters of a numeric line: digits, commas and spaces. *)
Definition csv_char (c : ascii) : bool :=
  Str.isdigit_char c || Ascii.eqb c Str.comma || Ascii.eqb c Str.space.

(** What is left of a line once commas and spaces are removed. *)
Definition digits_of (line : string) : string :=
  Str.remove Str.space (Str.remove Str.comma line).

(** A line as the extractor emits it: kept, and without surrounding whitespace. *)
Definition clean_line (line : string) : Prop :=
  keeps line = true /\ Str.strip line = line.

(** The cell of a grid at line [i] and position [j] (NaN outside the grid). *)
Definition grid_cell (values : list (list float)) (i j : nat) : float :=
  match values !! i with
  | Some line => default F64.nan (line !! j)
  | None => F64.nan
  end.

(** The annotations of the heatmap: line by line, the cells to 3 decimals. *)
Definition annotations (p : Pivot) : list plt_call :=
  flat_map
    (fun i => map (fun j => plt_text j i (F64.format_fixed 3 (grid_cell (pivot_values p) i j)))
                  (seq 0 (length (pivot_columns p))))
    (seq 0 (length (pivot_index p))).

(** * Properties *)

(** ** The extractor *)

Section Extractor.

Lemma scan_lines (lines acc : list string) :
  fold_left scan_line lines acc = acc ++ map Str.strip (List.filter keeps lines).
Proof.
  revert acc; induction lines as [|line lines IH]; intros acc; simpl.
  - by rewrite app_nil_r.
  - rewrite IH. unfold scan_line, keeps.
    destruct (looks_numeric line); simpl; [by rewrite <- app_assoc|].
    destruct (is_header line); simpl; [by rewrite <- app_assoc|done].
Qed.

Lemma contains_lstrip c s :
  Str.isspace c = false -> Str.contains c (Str.lstrip s) = Str.contains c s.
Proof.
  intros Hc; induction s as [|d s IH]; simpl; [done|].
  destruct (Str.isspace d) eqn:Hd; [|done].
  rewrite IH. destruct (Ascii.eqb_spec d c) as [->|]; [congruence|done].
Qed.

Lemma contains_rstrip c s :
  Str.isspace c = false -> Str.contains c (Str.rstrip s) = Str.contains c s.
Proof.
  intros Hc; induction s as [|d s IH]; simpl; [done|].
  destruct (Str.rstrip s) as [|e r] eqn:Hr.
  - simpl in IH. rewrite <- IH.
    destruct (Str.isspace d) eqn:Hd; simpl.
    + destruct (Ascii.eqb_spec d c) as [->|]; [congruence|done].
    + by rewrite orb_false_r.
  - change (Str.contains c (String d (String e r))) with (Ascii.eqb d c || Str.contains c (String e r)).
    by rewrite IH.
Qed.

Lemma contains_strip c s :
  Str.isspace c = false -> Str.contains c (Str.strip s) = Str.contains c s.
Proof.
  intros Hc. unfold Str.strip. by rewrite contains_lstrip, contains_rstrip.
Qed.

Lemma contains_remove c d s :
  Ascii.eqb c d = false -> Str.contains c (Str.remove d s) = Str.contains c s.
Proof.
  intros Hcd; induction s as [|e s IH]; simpl; [done|].
  destruct (Ascii.eqb_spec e d) as [->|]; simpl.
  - rewrite IH. rewrite Ascii.eqb_sym, Hcd. done.
  - by rewrite IH.
Qed.

Lemma all_chars_contains p c s :
  Str.contains c s = true -> p c = false -> Str.all_chars p s = false.
Proof.
  intros Hs Hp; induction s as [|d s IH]; simpl in *; [done|].
  destruct (Ascii.eqb_spec d c) as [->|]; simpl in *.
  - by rewrite Hp.
  - rewrite IH by done. apply andb_false_r.
Qed.

Lemma isdigit_contains c s :
  Str.contains c s = true -> Str.isdigit_char c = false -> Str.isdigit s = false.
Proof.
  intros Hs Hc. destruct s as [|d s]; [done|].
  unfold Str.isdigit. by apply all_chars_contains with c.
Qed.

Lemma keeps_rejects_dot line :
  Str.contains Str.dot line = true -> keeps line = false.
Proof.
  intros Hdot. unfold keeps. apply orb_false_iff; split.
  - unfold looks_numeric. apply andb_false_iff; right.
    apply isdigit_contains with Str.dot; [|done].
    by rewrite !contains_remove.
  - unfold is_header. apply String.eqb_neq. intros Heq.
    assert (Str.contains Str.dot (Str.strip line) = true) as H
      by (by rewrite contains_strip).
    rewrite Heq in H. discriminate H.
Qed.

End Extractor.

(** C5, as the specification words it, fails: a line of digits without a comma
    passes the specification's test and is dropped by the extractor. *)
Lemma extractor_drops_digits_without_comma :
  parse_forge_output "42" <> spec_parse_forge_output "42".
Proof. vm_compute. discriminate. Qed.

(** C5 (amended): the extractor strips the text, splits it into lines, and
    keeps, in their order and each stripped of surrounding whitespace, exactly
    the lines that contain a comma and consist of digits once commas and spaces
    are removed, or that equal the header once stripped; no line with a decimal
    point is kept. *)
Theorem parse_forge_output_keeps (text : string) :
  parse_forge_output text
  = Str.join Str.newline
      (map Str.strip (List.filter keeps (Str.split Str.newline (Str.strip text))))
  /\ (forall line,
        keeps line = true <->
        (Str.contains Str.comma line = true
         /\ Str.isdigit (Str.remove Str.space (Str.remove Str.comma line)) = true)
        \/ Str.strip line = header)
  /\ (forall line, Str.contains Str.dot line = true -> keeps line = false).
Proof.
  split; [|split].
  - unfold parse_forge_output. by rewrite scan_lines.
  - intros line. unfold keeps, looks_numeric, is_header.
    rewrite orb_true_iff, andb_true_iff, String.eqb_eq. done.
  - apply keeps_rejects_dot.
Qed.



Lemma parse_forge_output_keeps_witness :
  Str.contains Str.dot "1.5,2" = true /\ keeps "1.5,2" = false.
Proof.
  split; [reflexivity|].
  apply (proj2 (proj2 (parse_forge_output_keeps ""))). reflexivity.
Defined.

(** ** float64 facts *)

Section Float64.

Lemma shr_1_nonneg mrs : 0 <= shr_m mrs -> 0 <= shr_m (shr_1 mrs).
Proof.
  destruct mrs as [m r s]; simpl.
  destruct m as [|p|p]; try destruct p; simpl; lia.
Qed.

Lemma iter_shr_1_nonneg p mrs :
  0 <= shr_m mrs -> 0 <= shr_m (SpecFloat.iter_pos shr_1 p mrs).
Proof.
  revert mrs; induction p as [p IH|p IH|]; intros mrs Hm; simpl.
  - apply IH, IH. by apply shr_1_nonneg.
  - by apply IH, IH.
  - by apply shr_1_nonneg.
Qed.

Lemma shr_fexp_nonneg m e l :
  0 <= m -> 0 <= shr_m (fst (shr_fexp F64.prec F64.emax m e l)).
Proof.
  intros Hm. unfold shr_fexp, shr.
  assert (0 <= shr_m (shr_record_of_loc m l)) as H0
    by (destruct l as [|[]]; simpl; lia).
  destruct (_ - e); simpl; [done| |done].
  by apply iter_shr_1_nonneg.
Qed.

Lemma round_nearest_even_nonneg m l : 0 <= m -> 0 <= round_nearest_even m l.
Proof.
  intros Hm. destruct l as [|[]]; simpl; try destruct (Z.even m); lia.
Qed.

Lemma binary_round_aux_not_nan s m e l :
  0 <= m -> binary_round_aux F64.prec F64.emax s m e l <> F64.nan.
Proof.
  intros Hm. unfold binary_round_aux.
  pose proof (shr_fexp_nonneg m e l Hm) as H1.
  destruct (shr_fexp F64.prec F64.emax m e l) as [mrs' e']; simpl in H1.
  pose proof (shr_fexp_nonneg _ e' loc_Exact
                (round_nearest_even_nonneg _ (loc_of_shr_record mrs') H1)) as H2.
  destruct (shr_fexp F64.prec F64.emax _ e' loc_Exact) as [mrs'' e'']; simpl in H2.
  destruct (shr_m mrs'') as [|p|p]; [done| |lia].
  by destruct (e'' <=? _).
Qed.

Lemma of_int_not_nan z : F64.of_int z <> F64.nan.
Proof.
  unfold F64.of_int, binary_normalize.
  destruct z as [|p|p]; [done| |]; unfold binary_round;
    destruct (shl_align _ _ _) as [mz ez]; by apply binary_round_aux_not_nan.
Qed.

Lemma div_eucl_nonneg a b : 0 <= a -> 0 < b -> 0 <= fst (Z.div_eucl a b).
Proof.
  intros Ha Hb. change (fst (Z.div_eucl a b)) with (a / b).
  apply Z.div_pos; lia.
Qed.

Lemma div_finite_not_nan x s m e :
  x <> F64.nan -> F64.div x (S754_finite s m e) <> F64.nan.
Proof.
  intros Hx. destruct x as [sx|sx| |sx mx ex]; simpl; [done|done|done|].
  unfold SFdiv_core_binary.
  set (m' := match _ - _ - _ with Z0 => _ | Z.pos _ => _ | Z.neg _ => _ end).
  assert (0 <= m') as Hm'.
  { subst m'. destruct (_ - _ - _); [lia| |lia]. by apply Z.shiftl_nonneg. }
  pose proof (div_eucl_nonneg m' (Z.pos m) Hm' ltac:(lia)) as Hq.
  destruct (Z.div_eucl m' (Z.pos m)) as [q rem]; simpl in Hq.
  by apply binary_round_aux_not_nan.
Qed.

Lemma eqb_refl x : x <> F64.nan -> F64.eqb x x = true.
Proof.
  intros Hx. unfold F64.eqb, SFeqb.
  destruct x as [s|s| |s m e]; simpl; [done|by destruct s|done|].
  destruct s; by rewrite Z.compare_refl, Pos.compare_cont_refl.
Qed.

Lemma digits_bound p a : Z.pos p < 2 ^ a -> 0 <= a -> Z.pos (digits2_pos p) <= a.
Proof.
  intros Hp Ha. change (digits2_pos p) with (Pos.size p).
  pose proof (Pos.size_le p) as Hle.
  apply Pos2Z.pos_le_pos in Hle. rewrite Pos2Z.inj_pow in Hle.
  change (Z.pos p~0) with (2 * Z.pos p) in Hle.
  assert (2 ^ Z.pos (Pos.size p) < 2 ^ (a + 1)) as Hlt
    by (rewrite Z.pow_add_r, Z.pow_1_r by lia; lia).
  apply Z.pow_lt_mono_r_iff in Hlt; lia.
Qed.

Lemma digits_above p : Z.pos p < 2 ^ Z.pos (digits2_pos p).
Proof.
  change (digits2_pos p) with (Pos.size p).
  pose proof (Pos.size_gt p) as Hgt.
  apply Pos2Z.pos_lt_pos in Hgt. by rewrite Pos2Z.inj_pow in Hgt.
Qed.

Lemma digits_iter_xO p k :
  digits2_pos (Pos.iter xO p k) = (digits2_pos p + k)%positive.
Proof.
  induction k as [|k IH] using Pos.peano_ind.
  - simpl. lia.
  - rewrite Pos.iter_succ. simpl. rewrite IH. lia.
Qed.

Lemma value_iter_xO p k : Z.pos (Pos.iter xO p k) = Z.pos p * 2 ^ Z.pos k.
Proof.
  induction k as [|k IH] using Pos.peano_ind.
  - simpl. lia.
  - rewrite Pos.iter_succ, Pos2Z.inj_succ, Z.pow_succ_r by lia.
    change (Z.pos (Pos.iter xO p k)~0) with (2 * Z.pos (Pos.iter xO p k)). lia.
Qed.

Lemma binary_round_aux_exact s m e :
  digits2_pos m = 53%positive -> -1074 <= e <= 971 ->
  binary_round_aux 53 1024 s (Z.pos m) e loc_Exact = S754_finite s m e.
Proof.
  intros Hd He. unfold binary_round_aux, shr_fexp, fexp, emin. simpl Zdigits2.
  rewrite Hd.
  replace (Z.max (53 + e - 53) (3 - 1024 - 53) - e) with 0 by lia.
  simpl. rewrite Hd.
  replace (Z.max (53 + e - 53) (3 - 1024 - 53) - e) with 0 by lia.
  simpl. destruct (Z.leb_spec e (1024 - 53)); [done|lia].
Qed.

Lemma of_int_pos p :
  Z.pos p < 2 ^ 53 ->
  exists m e, F64.of_int (Z.pos p) = S754_finite false m e
    /\ digits2_pos m = 53%positive /\ -52 <= e <= 0 /\ Z.pos m = Z.pos p * 2 ^ (- e).
Proof.
  intros Hp. pose proof (digits_bound p 53 Hp ltac:(lia)) as Hd.
  unfold F64.of_int, F64.prec, F64.emax, binary_normalize, binary_round, fexp, emin, shl_align.
  rewrite Z.max_l by lia.
  destruct (Z.pos (digits2_pos p) + 0 - 53 - 0) as [|k|k] eqn:Hk; try lia.
  - exists p, 0. rewrite binary_round_aux_exact by lia.
    repeat split; lia.
  - exists (Pos.iter xO p k), (Z.pos (digits2_pos p) + 0 - 53).
    rewrite binary_round_aux_exact; [|rewrite digits_iter_xO; lia|lia].
    repeat split; try lia.
    + rewrite digits_iter_xO; lia.
    + rewrite value_iter_xO. f_equal. f_equal. lia.
Qed.

Lemma shr_1_le mrs : 0 <= shr_m mrs -> shr_m (shr_1 mrs) <= shr_m mrs.
Proof.
  destruct mrs as [m r s]; simpl.
  destruct m as [|p|p]; try destruct p; simpl; lia.
Qed.

Lemma iter_shr_1_bounds p mrs :
  0 <= shr_m mrs -> 0 <= shr_m (SpecFloat.iter_pos shr_1 p mrs) <= shr_m mrs.
Proof.
  revert mrs; induction p as [p IH|p IH|]; intros mrs Hm; simpl.
  - pose proof (shr_1_nonneg mrs Hm). pose proof (shr_1_le mrs Hm).
    pose proof (IH _ H) as H1. pose proof (IH _ (proj1 H1)). lia.
  - pose proof (IH _ Hm) as H1. pose proof (IH _ (proj1 H1)). lia.
  - pose proof (shr_1_nonneg mrs Hm). pose proof (shr_1_le mrs Hm). lia.
Qed.

Lemma Zdigits2_bound m a : 0 <= m < 2 ^ a -> 0 <= a -> 0 <= Zdigits2 m <= a.
Proof.
  intros Hm Ha. destruct m as [|p|p]; simpl; [lia| |lia].
  pose proof (digits_bound p a ltac:(lia) Ha). lia.
Qed.

Lemma shr_fexp_bounds m e l :
  0 <= m ->
  0 <= shr_m (fst (shr_fexp 53 1024 m e l)) <= m
  /\ snd (shr_fexp 53 1024 m e l) = Z.max e (fexp 53 1024 (Zdigits2 m + e)).
Proof.
  intros Hm. unfold shr_fexp, shr.
  assert (shr_m (shr_record_of_loc m l) = m) as H0
    by (destruct l as [|[]]; reflexivity).
  destruct (fexp 53 1024 (Zdigits2 m + e) - e) as [|n|n] eqn:Hn; simpl.
  - rewrite H0. lia.
  - pose proof (iter_shr_1_bounds n (shr_record_of_loc m l)) as H. rewrite H0 in H. lia.
  - rewrite H0. lia.
Qed.

Lemma round_nearest_even_bounds m l : 0 <= m -> 0 <= round_nearest_even m l <= m + 1.
Proof.
  intros Hm. destruct l as [|[]]; simpl; try destruct (Z.even m); lia.
Qed.

Lemma binary_round_aux_finite s m e l a :
  0 <= m < 2 ^ a -> 0 <= a <= 500 -> e <= 0 ->
  F64.isfinite (binary_round_aux 53 1024 s m e l) = true.
Proof.
  intros Hm Ha He. unfold binary_round_aux.
  pose proof (shr_fexp_bounds m e l ltac:(lia)) as [H1 E1].
  pose proof (Zdigits2_bound m a Hm ltac:(lia)) as Hd1.
  destruct (shr_fexp 53 1024 m e l) as [mrs' e']; simpl in H1, E1.
  pose proof (round_nearest_even_bounds (shr_m mrs') (loc_of_shr_record mrs') ltac:(lia)) as Hr.
  set (m1 := round_nearest_even (shr_m mrs') (loc_of_shr_record mrs')) in *.
  pose proof (shr_fexp_bounds m1 e' loc_Exact ltac:(lia)) as [H2 E2].
  assert (2 ^ a < 2 ^ (a + 1)) as Hpow by (apply Z.pow_lt_mono_r; lia).
  pose proof (Zdigits2_bound m1 (a + 1) ltac:(lia) ltac:(lia)) as Hd2.
  destruct (shr_fexp 53 1024 m1 e' loc_Exact) as [mrs'' e'']; simpl in H2, E2.
  destruct (shr_m mrs'') as [|q|q]; [done| |lia].
  unfold fexp, emin in E1, E2.
  destruct (Z.leb_spec e'' (1024 - 53)); [done|lia].
Qed.

Lemma of_int_small_shape z :
  0 <= z < 2 ^ 53 ->
  (z = 0 /\ F64.of_int z = S754_zero false)
  \/ exists m e, F64.of_int z = S754_finite false m e
       /\ Z.pos m < 2 ^ 53 /\ -52 <= e <= 0 /\ Z.pos m = z * 2 ^ (- e).
Proof.
  intros Hz. destruct z as [|p|p]; [by left| |lia].
  right. destruct (of_int_pos p ltac:(lia)) as (m & e & Hm & Hd & He & Hv).
  exists m, e. repeat split; try done; try lia.
  pose proof (digits_above m) as H. by rewrite Hd in H.
Qed.

(** [int(float(z)) = z] for a non-negative integer below 2^53. *)
Lemma to_int_of_int z : 0 <= z < 2 ^ 53 -> F64.to_int (F64.of_int z) = Some z.
Proof.
  intros Hz. destruct (of_int_small_shape z Hz) as [[-> ->]|(m & e & -> & Hm & He & Hv)]; simpl.
  - done.
  - f_equal. destruct (Z.leb_spec 0 e).
    + assert (e = 0) as -> by lia. simpl in Hv. lia.
    + rewrite Hv. apply Z.div_mul. apply Z.pow_nonzero; lia.
Qed.

Lemma fold_max_bounds (xs : list Z) (x hi : Z) :
  0 <= x < hi -> Forall (fun y => 0 <= y < hi) xs -> 0 <= fold_left Z.max xs x < hi.
Proof.
  intros Hx Hxs. revert x Hx. induction Hxs as [|y xs Hy _ IH]; intros x Hx; simpl; [done|].
  apply IH. lia.
Qed.

(** The x-axis limit of a chart is finite whenever the column it is taken
    from has a row and holds non-negative integers below 2^53. *)
Lemma upper_limit_finite (xs : list Z) :
  xs <> [] -> Forall (fun x => 0 <= x < 2 ^ 53) xs ->
  F64.isfinite (upper_limit xs) = true.
Proof.
  intros Hne Hxs. destruct xs as [|x xs]; [done|].
  inversion Hxs as [|? ? Hx Hrest]; subst.
  pose proof (fold_max_bounds xs x _ Hx Hrest) as Hmax.
  unfold upper_limit, series_max, scalar_float.
  assert (F64.literal 105 2 = S754_finite false 4728779608739021 (-52)) as ->
    by (by vm_compute).
  destruct (of_int_small_shape _ Hmax) as [[_ ->]|(m & e & -> & Hm & He & _)]; [done|].
  unfold F64.mul, SFmul.
  apply binary_round_aux_finite with (a := 106); [|lia|lia].
  change (2 ^ 106) with (2 ^ 53 * 2 ^ 53).
  rewrite Pos2Z.inj_mul. split; [lia|].
  apply Z.mul_lt_mono_nonneg; lia.
Qed.

(** The quotient of an int64 cell by 10000 is never NaN, so it is equal to
    itself under Python's [==]. *)
Lemma decimal_cell_eqb m :
  F64.eqb (F64.div (F64.of_int m) (F64.of_int 10000))
          (F64.div (F64.of_int m) (F64.of_int 10000)) = true.
Proof.
  apply eqb_refl.
  assert (exists s mk ek, F64.of_int 10000 = S754_finite s mk ek) as (s & mk & ek & ->)
    by (vm_compute; eauto).
  apply div_finite_not_nan, of_int_not_nan.
Qed.

End Float64.

(** ** The derived column *)

Ltac run_monad :=
  unfold mbind, M_bind, mret, M_ret, raise, lift, plt, print, consume, store, xlim; simpl.

Section Derive.

Lemma derive_run (r : loc) (df : DataFrame) (w : world) :
  heap w !! r = Some df ->
  derive r w
  = (Ok tt,
     mkWorld (files w)
       (<[r := mkFrame (rows df) (Some (truediv (column multiplier df) 10000))]> (heap w))
       (stdout w) (canvas w) (consumed w)).
Proof.
  intros Hr. unfold derive, deref. run_monad. by rewrite Hr.
Qed.

Lemma lookup_map {A B} (f : A -> B) (l : list A) (i : nat) :
  map f l !! i = f <$> l !! i.
Proof. exact (list_lookup_fmap f l i). Qed.

Lemma truediv_lookup (col : list Z) (k : Z) (i : nat) (m : Z) :
  col !! i = Some m ->
  truediv col k !! i = Some (F64.div (F64.of_int m) (F64.of_int k)).
Proof.
  intros Hi. unfold truediv. by rewrite lookup_map, Hi.
Qed.

End Derive.

(** C2: on any table the caller holds, the deriver succeeds and leaves in it
    the same rows, in the same number, with a [multiplier_decimal] column that
    has one cell per row, equal (under Python's [==]) to the row's multiplier
    divided by 10000. *)
Theorem derive_multiplier_decimal (r : loc) (df : DataFrame) (w : world) :
  heap w !! r = Some df ->
  exists w' df' col,
    derive r w = (Ok tt, w')
    /\ heap w' !! r = Some df'
    /\ rows df' = rows df
    /\ row_count df' = row_count df
    /\ multiplier_decimal df' = Some col
    /\ length col = row_count df
    /\ forall i row, rows df' !! i = Some row ->
         exists d, col !! i = Some d
           /\ d = F64.div (F64.of_int (multiplier row)) (F64.of_int 10000)
           /\ F64.eqb d (F64.div (F64.of_int (multiplier row)) (F64.of_int 10000)) = true.
Proof.
  intros Hr. eexists _, _, _. split; [by apply derive_run|].
  simpl. rewrite lookup_insert_eq. repeat split; try reflexivity.
  - unfold truediv, column, row_count. by rewrite !length_map.
  - intros i row Hi. simpl in Hi.
    eexists. split; [|split; [reflexivity|apply decimal_cell_eqb]].
    apply truediv_lookup. unfold column. by rewrite lookup_map, Hi.
Qed.

Lemma derive_multiplier_decimal_witness :
  heap (world_with_table grid_rows) !! 0%nat = Some (mkFrame grid_rows None)
  /\ exists w' df' col,
       derive 0%nat (world_with_table grid_rows) = (Ok tt, w')
       /\ heap w' !! 0%nat = Some df'
       /\ rows df' = grid_rows
       /\ row_count df' = 4%nat
       /\ multiplier_decimal df' = Some col
       /\ length col = 4%nat
       /\ forall i row, rows df' !! i = Some row ->
            exists d, col !! i = Some d
              /\ d = F64.div (F64.of_int (multiplier row)) (F64.of_int 10000)
              /\ F64.eqb d (F64.div (F64.of_int (multiplier row)) (F64.of_int 10000)) = true.
Proof.
  split; [reflexivity|].
  exact (derive_multiplier_decimal 0%nat (mkFrame grid_rows None)
           (world_with_table grid_rows) eq_refl).
Defined.

(** C9, as stated, fails: after the deriver has run, the table the caller
    holds is no longer the table it passed in. *)
Lemma derive_changes_the_callers_table :
  heap (world_with_table grid_rows) !! 0%nat = Some (mkFrame grid_rows None)
  /\ heap (snd (derive 0%nat (world_with_table grid_rows))) !! 0%nat
     <> heap (world_with_table grid_rows) !! 0%nat.
Proof.
  split; [reflexivity|].
  rewrite (derive_run 0%nat (mkFrame grid_rows None)) by reflexivity.
  simpl. rewrite lookup_insert_eq. discriminate.
Qed.

(** C9 (amended): the deriver is a function of the caller's table alone and
    its one effect is on that table object, which it updates in place: the
    column [multiplier_decimal] is added (or replaced), the rows stay as they
    were, and every other object, the printed output, the figures, the files
    and the sources read are untouched. *)
Theorem derive_in_place (r : loc) (df : DataFrame) (w : world) :
  heap w !! r = Some df ->
  exists w',
    derive r w = (Ok tt, w')
    /\ heap w' !! r
       = Some (mkFrame (rows df) (Some (truediv (column multiplier df) 10000)))
    /\ (forall r', r' <> r -> heap w' !! r' = heap w !! r')
    /\ files w' = files w
    /\ stdout w' = stdout w
    /\ canvas w' = canvas w
    /\ consumed w' = consumed w.
Proof.
  intros Hr. eexists. split; [by apply derive_run|]. simpl.
  rewrite lookup_insert_eq. repeat split; try reflexivity.
  intros r' Hne. by rewrite lookup_insert_ne.
Qed.

Lemma derive_in_place_witness :
  heap (world_with_table grid_rows) !! 0%nat = Some (mkFrame grid_rows None)
  /\ exists w',
       derive 0%nat (world_with_table grid_rows) = (Ok tt, w')
       /\ heap w' !! 0%nat
          = Some (mkFrame grid_rows (Some (truediv (map multiplier grid_rows) 10000)))
       /\ (forall r', r' <> 0%nat -> heap w' !! r' = heap (world_with_table grid_rows) !! r')
       /\ files w' = ∅
       /\ stdout w' = []
       /\ canvas w' = []
       /\ consumed w' = [].
Proof.
  split; [reflexivity|].
  exact (derive_in_place 0%nat (mkFrame grid_rows None) (world_with_table grid_rows) eq_refl).
Defined.

(** ** The loader *)

Section Loader.

Variable read_csv : string -> result (list Row).

Lemma pd_read_csv_frame (src : source) (w : world) :
  let w' := snd (pd_read_csv read_csv src w) in
  consumed w' = consumed w ++ [src]
  /\ files w' = files w /\ stdout w' = stdout w /\ canvas w' = canvas w.
Proof.
  unfold pd_read_csv, read_file, alloc. run_monad.
  destruct src as [path|content]; simpl.
  - destruct (files w !! path) as [document|]; simpl; [|done].
    by destruct (read_csv document).
  - by destruct (read_csv content).
Qed.

Lemma read_multiplier_data_frame (csv_content csv_file : option string) (w : world) :
  let w' := snd (read_multiplier_data read_csv csv_content csv_file w) in
  files w' = files w /\ stdout w' = stdout w /\ canvas w' = canvas w.
Proof.
  unfold read_multiplier_data.
  destruct (truthy csv_file) as [path|].
  { apply (pd_read_csv_frame (FromFile path) w). }
  destruct (truthy csv_content) as [content|].
  { apply (pd_read_csv_frame (FromText content) w). }
  done.
Qed.

End Loader.

(** C1, as stated, fails: handed both a file path and a text blob, the loader
    reads the file and returns its table. *)
Lemma loader_accepts_both_sources :
  read_multiplier_data read_int_csv (Some grid_csv) (Some "multipliers.csv"%string)
    (world_with_file "multipliers.csv" grid_csv)
  = (Ok 0%nat,
     mkWorld {[ "multipliers.csv"%string := grid_csv ]} {[ 0%nat := mkFrame grid_rows None ]}
       [] [] [FromFile "multipliers.csv"]).
Proof. by vm_compute. Qed.

(** C1 (amended): with neither a non-empty file path nor a non-empty text blob
    the loader raises [ValueError] and reads nothing; with a non-empty file
    path it reads that file, whatever the text blob is; otherwise it reads the
    text blob. Whenever it reads, it hands exactly one source to the CSV
    reader. *)
Theorem read_multiplier_data_sources
    (read_csv : string -> result (list Row))
    (csv_content csv_file : option string) (w : world) :
  match truthy csv_file, truthy csv_content with
  | Some path, _ =>
      read_multiplier_data read_csv csv_content csv_file w
      = pd_read_csv read_csv (FromFile path) w
      /\ consumed (snd (read_multiplier_data read_csv csv_content csv_file w))
         = consumed w ++ [FromFile path]
  | None, Some content =>
      read_multiplier_data read_csv csv_content csv_file w
      = pd_read_csv read_csv (FromText content) w
      /\ consumed (snd (read_multiplier_data read_csv csv_content csv_file w))
         = consumed w ++ [FromText content]
  | None, None =>
      read_multiplier_data read_csv csv_content csv_file w
      = (Raise (ValueError "Must provide either csv_content or csv_file"), w)
  end.
Proof.
  unfold read_multiplier_data.
  destruct (truthy csv_file) as [path|].
  { split; [done|]. apply (pd_read_csv_frame read_csv (FromFile path) w). }
  destruct (truthy csv_content) as [content|]; [|done].
  split; [done|]. apply (pd_read_csv_frame read_csv (FromText content) w).
Qed.

(** ** The top-level flow *)



(** ** Selecting and sorting rows *)

Section Frames.

Context {A B : Type}.

Lemma select_map (p : A -> bool) (f : A -> B) (l : list A) :
  select (map p l) (map f l) = map f (List.filter p l).
Proof.
  induction l as [|x l IH]; simpl; [done|].
  destruct (p x); simpl; by rewrite IH.
Qed.

Lemma select_filter (p : A -> bool) (l : list A) :
  select (map p l) l = List.filter p l.
Proof.
  induction l as [|x l IH]; simpl; [done|].
  destruct (p x); simpl; by rewrite IH.
Qed.

Lemma take_at_map (f : A -> B) (idx : list nat) (l : list A) :
  take_at idx (map f l) = map f (take_at idx l).
Proof.
  induction idx as [|i idx IH]; simpl; [done|].
  rewrite lookup_map. destruct (l !! i); simpl; by rewrite IH.
Qed.

Lemma insert_by_length (key : A -> Z) (x : A) (l : list A) :
  length (insert_by key x l) = S (length l).
Proof.
  induction l as [|y l IH]; simpl; [done|].
  destruct (key y <? key x); simpl; by rewrite ?IH.
Qed.

Lemma sort_by_length (key : A -> Z) (l : list A) :
  length (sort_by key l) = length l.
Proof.
  unfold sort_by. induction l as [|x l IH]; simpl; [done|].
  by rewrite insert_by_length, IH.
Qed.

Lemma insert_by_perm (key : A -> Z) (x : A) (l : list A) :
  Permutation (insert_by key x l) (x :: l).
Proof.
  induction l as [|y l IH]; simpl; [done|].
  destruct (key y <? key x); [|done].
  rewrite IH. apply perm_swap.
Qed.

(** Sorting loses and invents no row. *)
Lemma sort_by_perm (key : A -> Z) (l : list A) :
  Permutation (sort_by key l) l.
Proof.
  unfold sort_by. induction l as [|x l IH]; simpl; [done|].
  rewrite insert_by_perm. by constructor.
Qed.

Lemma insert_by_sorted (key : A -> Z) (x : A) (l : list A) :
  Sorted (fun a b => key a <= key b) l ->
  Sorted (fun a b => key a <= key b) (insert_by key x l).
Proof.
  induction 1 as [|y l Hl IH Hhd]; simpl; [by repeat constructor|].
  destruct (Z.ltb_spec (key y) (key x)).
  - constructor; [done|].
    destruct l as [|z l]; simpl in *; [constructor; lia|].
    destruct (Z.ltb_spec (key z) (key x)); constructor; [|lia].
    by inversion Hhd.
  - constructor; [by constructor|]. constructor. lia.
Qed.

(** Sorting puts the keys in ascending order. *)
Lemma sort_by_sorted (key : A -> Z) (l : list A) :
  Sorted (fun a b => key a <= key b) (sort_by key l).
Proof.
  unfold sort_by. induction l as [|x l IH]; simpl; [constructor|].
  by apply insert_by_sorted.
Qed.



End Frames.


Section Argsort.

Context {A : Type}.
Variable key : A -> Z.
Variable l : list A.

Local Abbreviation valid := (describes key l).

Lemma take_insert_by (k : Z) (i : nat) (x : A) (ps : list (Z * nat)) :
  l !! i = Some x -> key x = k -> Forall valid ps ->
  take_at (map snd (insert_by fst (k, i) ps)) l
  = insert_by key x (take_at (map snd ps) l).
Proof.
  intros Hi Hk Hps.
  induction Hps as [|[k' i'] ps (x' & Hi' & Hk') Hps IH]; simpl in *.
  - by rewrite Hi.
  - rewrite Hi'. simpl. rewrite Hk', Hk.
    destruct (k' <? k); simpl.
    + by rewrite Hi', IH.
    + by rewrite Hi, Hi'.
Qed.

Lemma insert_by_describes (p : Z * nat) (ps : list (Z * nat)) :
  valid p -> Forall valid ps -> Forall valid (insert_by fst p ps).
Proof.
  intros Hp Hps. eapply Permutation_Forall; [symmetry; apply insert_by_perm|].
  by constructor.
Qed.

Lemma sort_by_describes (ps : list (Z * nat)) :
  Forall valid ps -> Forall valid (sort_by fst ps).
Proof.
  intros Hps. eapply Permutation_Forall; [symmetry; apply sort_by_perm|done].
Qed.

Lemma take_sort_by (ps : list (Z * nat)) :
  Forall valid ps ->
  take_at (map snd (sort_by fst ps)) l = sort_by key (take_at (map snd ps) l).
Proof.
  induction 1 as [|[k i] ps (x & Hi & Hk) Hps IH]; [done|].
  simpl in Hi, Hk. change (sort_by fst ((k, i) :: ps)) with (insert_by fst (k, i) (sort_by fst ps)).
  rewrite (take_insert_by k i x) by (try done; by apply sort_by_describes).
  rewrite IH. simpl. by rewrite Hi.
Qed.

End Argsort.

Section Slices.

Lemma positions_describe {A} (key : A -> Z) (pre suf : list A) :
  Forall (describes key (pre ++ suf))
    (combine (map key suf) (seq (length pre) (length suf)))
  /\ take_at (map snd (combine (map key suf) (seq (length pre) (length suf)))) (pre ++ suf)
     = suf.
Proof.
  revert pre; induction suf as [|x suf IH]; intros pre; simpl; [by split|].
  assert ((pre ++ x :: suf) !! length pre = Some x) as Hx
    by apply list_lookup_middle, eq_refl.
  destruct (IH (pre ++ [x])) as [Hall Htake].
  rewrite <- app_assoc, length_app, Nat.add_1_r in Hall, Htake. simpl in Hall, Htake.
  split.
  - constructor; [by exists x|done].
  - by rewrite Hx, Htake.
Qed.

(** Taking the rows at the positions of [argsort] sorts them by the key. *)
Lemma take_argsort {A} (key : A -> Z) (l : list A) :
  take_at (argsort (map key l)) l = sort_by key l.
Proof.
  unfold argsort. rewrite length_map.
  destruct (positions_describe key [] l) as [Hall Htake]. simpl in Hall, Htake.
  rewrite (take_sort_by key l) by done. by rewrite Htake.
Qed.

Lemma lockup_slice_rows (k : Z) (df : DataFrame) :
  rows (lockup_slice k df)
  = sort_by tokens (List.filter (fun row => lockup_days row =? k) (rows df)).
Proof.
  unfold lockup_slice, sort_values_tokens, frame_take, frame_select, column. simpl.
  rewrite map_map, select_filter. apply take_argsort.
Qed.

(** A column computed row by row stays aligned with the rows of a slice. *)
Lemma lockup_slice_decimal (k : Z) (df : DataFrame) (g : Row -> float) :
  multiplier_decimal df = Some (map g (rows df)) ->
  multiplier_decimal (lockup_slice k df) = Some (map g (rows (lockup_slice k df))).
Proof.
  intros Hcol.
  unfold lockup_slice, sort_values_tokens, frame_take, frame_select, column. simpl.
  rewrite Hcol. simpl. f_equal.
  rewrite map_map, select_map, select_filter. apply take_at_map.
Qed.

Lemma lockup_slice_has_decimal (k : Z) (df : DataFrame) (col : list float) :
  multiplier_decimal df = Some col ->
  exists col', multiplier_decimal (lockup_slice k df) = Some col'.
Proof.
  intros Hcol.
  unfold lockup_slice, sort_values_tokens, frame_take, frame_select. simpl.
  rewrite Hcol. simpl. eauto.
Qed.

Lemma filter_none {A} (p : A -> bool) (l : list A) :
  Forall (fun x => p x = false) l -> List.filter p l = [].
Proof.
  induction 1 as [|x l Hx _ IH]; simpl; [done|]. by rewrite Hx.
Qed.

End Slices.

(** ** The bonus chart *)

(** C8, as stated, fails: on a table with one 30-day row the line chart is
    drawn, and the bonus chart then raises. *)
Lemma bonus_chart_raises_without_365 :
  let w1 := snd (derive 0%nat (world_with_table [mkRow 100 30 10000])) in
  let w2 := snd (line_chart 0%nat w1) in
  Forall (fun row => lockup_days row <> 365) [mkRow 100 30 10000]
  /\ fst (line_chart 0%nat w1) = Ok tt
  /\ fst (bonus_chart 0%nat w2) = Raise (ValueError "Axis limits cannot be NaN or Inf").
Proof.
  split; [by repeat constructor|]. by vm_compute.
Qed.

(** C8 (amended): on a table with no row at 365 days the bonus chart opens
    its figure, plots an empty curve and then raises [ValueError] when it sets
    the x-axis limit, the maximum of an empty column being NaN; the table
    below the curve is not drawn. *)
Theorem bonus_chart_without_365 (r : loc) (df : DataFrame) (w : world) :
  heap w !! r = Some df ->
  Forall (fun row => lockup_days row <> 365) (rows df) ->
  bonus_chart r w
  = (Raise (ValueError "Axis limits cannot be NaN or Inf"),
     mkWorld (files w) (heap w) (stdout w)
       (canvas w ++ [plt_figure 14 8; plt_subplot 2 1 1; plt_plot [] [] "b-" None;
                     plt_style "xlabel"; plt_style "ylabel"; plt_style "title";
                     plt_style "grid"])
       (consumed w)).
Proof.
  intros Hr Hnone.
  assert (rows (lockup_slice 365 df) = []) as Hrows.
  { rewrite lockup_slice_rows, filter_none; [done|].
    eapply Forall_impl; [exact Hnone|]. intros row Hrow. by apply Z.eqb_neq. }
  unfold bonus_chart, deref. run_monad. rewrite Hr. simpl.
  unfold column. rewrite Hrows. simpl.
  by rewrite <- !app_assoc.
Qed.

Lemma bonus_chart_without_365_witness :
  heap (snd (derive 0%nat (world_with_table [mkRow 100 30 10000]))) !! 0%nat
  = Some (mkFrame [mkRow 100 30 10000] (Some (truediv [10000] 10000)))
  /\ Forall (fun row => lockup_days row <> 365) [mkRow 100 30 10000]
  /\ fst (bonus_chart 0%nat (snd (derive 0%nat (world_with_table [mkRow 100 30 10000]))))
     = Raise (ValueError "Axis limits cannot be NaN or Inf").
Proof.
  assert (heap (snd (derive 0%nat (world_with_table [mkRow 100 30 10000]))) !! 0%nat
          = Some (mkFrame [mkRow 100 30 10000] (Some (truediv [10000] 10000)))) as Hr
    by reflexivity.
  assert (Forall (fun row => lockup_days row <> 365) [mkRow 100 30 10000]) as Hnone
    by (by repeat constructor).
  split; [exact Hr|]. split; [exact Hnone|].
  rewrite (bonus_chart_without_365 0%nat _ _ Hr Hnone). reflexivity.
Defined.

(** ** The line chart *)

Lemma sorted_length (xs : list Z) : length (sorted xs) = length xs.
Proof. apply sort_by_length. Qed.

Section LineChart.

Local Opaque lockup_slice sorted unique.

Lemma line_chart_palette_exhausted (r : loc) (df : DataFrame) (col : list float) (w : world) :
  heap w !! r = Some df ->
  multiplier_decimal df = Some col ->
  (5 < length (unique (column lockup_days df)))%nat ->
  exists w',
    line_chart r w = (Raise (IndexError "list index out of range"), w')
    /\ length (canvas w') = (length (canvas w) + 6)%nat
    /\ heap w' = heap w /\ stdout w' = stdout w.
Proof.
  intros Hr Hcol Hmany.
  assert (5 < length (sorted (unique (column lockup_days df))))%nat as Hlen
    by (by rewrite sorted_length).
  destruct (sorted (unique (column lockup_days df)))
    as [|a0 [|a1 [|a2 [|a3 [|a4 [|a5 rest]]]]]] eqn:HL; simpl in Hlen; try lia.
  destruct (lockup_slice_has_decimal a0 df col Hcol) as [c0 E0].
  destruct (lockup_slice_has_decimal a1 df col Hcol) as [c1 E1].
  destruct (lockup_slice_has_decimal a2 df col Hcol) as [c2 E2].
  destruct (lockup_slice_has_decimal a3 df col Hcol) as [c3 E3].
  destruct (lockup_slice_has_decimal a4 df col Hcol) as [c4 E4].
  destruct (lockup_slice_has_decimal a5 df col Hcol) as [c5 E5].
  eexists. unfold line_chart, deref, getitem_decimal, list_index. run_monad.
  rewrite Hr. simpl. rewrite HL. simpl.
  rewrite E0, E1, E2, E3, E4, E5. simpl.
  split; [reflexivity|]. simpl. rewrite !length_app. simpl. split; [lia|done].
Qed.

End LineChart.

(** C10: on a table with more than five distinct lockup periods the renderer
    derives the column, opens the first figure, plots the first five periods
    and raises [IndexError] when it looks up the colour of the sixth. *)
Theorem line_chart_index_error (r : loc) (df : DataFrame) (w : world) :
  heap w !! r = Some df ->
  (5 < length (unique (column lockup_days df)))%nat ->
  exists w1 w2,
    derive r w = (Ok tt, w1)
    /\ line_chart r w1 = (Raise (IndexError "list index out of range"), w2)
    /\ create_multiplier_charts r w = (Raise (IndexError "list index out of range"), w2)
    /\ length (canvas w2) = (length (canvas w) + 6)%nat.
Proof.
  intros Hr Hmany.
  pose proof (derive_run r df w Hr) as Hderive.
  set (df1 := mkFrame (rows df) (Some (truediv (column multiplier df) 10000))) in *.
  set (w1 := mkWorld (files w) (<[r := df1]> (heap w)) (stdout w) (canvas w) (consumed w)) in *.
  destruct (line_chart_palette_exhausted r df1
              (truediv (column multiplier df) 10000) w1) as (w2 & Hline & Hcanvas & _);
    [apply lookup_insert_eq|reflexivity|exact Hmany|].
  exists w1, w2. repeat split; try done.
  unfold create_multiplier_charts. run_monad. by rewrite Hderive, Hline.
Qed.

Lemma line_chart_index_error_witness :
  heap (world_with_table six_lockups) !! 0%nat = Some (mkFrame six_lockups None)
  /\ (5 < length (unique (column lockup_days (mkFrame six_lockups None))))%nat
  /\ fst (create_multiplier_charts 0%nat (world_with_table six_lockups))
     = Raise (IndexError "list index out of range").
Proof.
  assert (heap (world_with_table six_lockups) !! 0%nat = Some (mkFrame six_lockups None))
    as Hr by reflexivity.
  assert (5 < length (unique (column lockup_days (mkFrame six_lockups None))))%nat
    as Hmany by (vm_compute; lia).
  split; [exact Hr|]. split; [exact Hmany|].
  destruct (line_chart_index_error 0%nat _ _ Hr Hmany) as (w1 & w2 & _ & _ & Hall & _).
  rewrite Hall. reflexivity.
Defined.

(** ** The bonus table *)

Section Bonus.

Lemma collect_pure {A B C} (h : C -> A) (f : C -> B) (body : A -> M B) (xs : list C) :
  Forall (fun x => forall w, body (h x) w = (Ok (f x), w)) xs ->
  forall acc w, collect (map h xs) body acc w = (Ok (acc ++ map f xs), w).
Proof.
  induction 1 as [|x xs Hx _ IH]; intros acc w; simpl.
  - by rewrite app_nil_r.
  - unfold mbind, M_bind. rewrite Hx, IH. by rewrite <- app_assoc.
Qed.

Lemma combine_map_r {A B} (g : A -> B) (l : list A) :
  combine l (map g l) = map (fun x => (x, g x)) l.
Proof. induction l as [|x l IH]; simpl; by rewrite ?IH. Qed.

Lemma rows_365_slice (df : DataFrame) : rows (lockup_slice 365 df) = rows_365 df.
Proof. apply lockup_slice_rows. Qed.

Lemma rows_365_bounds (df : DataFrame) (P : Row -> Prop) :
  Forall P (rows df) -> Forall P (rows_365 df).
Proof.
  intros Hall. unfold rows_365.
  eapply Permutation_Forall; [symmetry; apply sort_by_perm|].
  apply List.Forall_forall. intros row Hin%filter_In.
  rewrite List.Forall_forall in Hall. apply Hall, Hin.
Qed.

Lemma rows_365_nonempty (df : DataFrame) :
  Exists (fun row => lockup_days row = 365) (rows df) -> rows_365 df <> [].
Proof.
  intros (row & Hin & Hrow)%List.Exists_exists Hnil.
  assert (In row (rows_365 df)) as H; [|by rewrite Hnil in H].
  unfold rows_365. eapply Permutation_in; [symmetry; apply sort_by_perm|].
  apply filter_In. split; [done|]. by apply Z.eqb_eq.
Qed.

(** One iteration of the table loop on a row whose token amount is a
    non-negative integer below 2^53. *)
Lemma comparison_row_run (row : Row) (w : world) :
  0 <= tokens row < 2 ^ 53 ->
  comparison_row
    (mkRowSeries (FloatS (F64.of_int (tokens row))) (FloatS (F64.of_int (lockup_days row)))
       (FloatS (F64.of_int (multiplier row)))
       (Some (F64.div (F64.of_int (multiplier row)) (F64.of_int 10000)))) w
  = (Ok (summary_line row), w).
Proof.
  intros Htok. unfold comparison_row, scalar_int, int_of_float. simpl.
  rewrite (to_int_of_int _ Htok). reflexivity.
Qed.

Section BonusRun.

Local Opaque lockup_slice upper_limit comparison_row iterrows collect truediv sub_scalar column.

Lemma bonus_chart_run (r : loc) (df : DataFrame) (w : world) (table : list (list string)) :
  heap w !! r = Some df ->
  F64.isfinite (upper_limit (column tokens (lockup_slice 365 df))) = true ->
  (forall w', collect (iterrows (lockup_slice 365 df)) comparison_row [] w' = (Ok table, w')) ->
  bonus_chart r w
  = (Ok tt,
     mkWorld (files w) (heap w) (stdout w)
       (canvas w ++
        [ plt_figure 14 8; plt_subplot 2 1 1;
          plt_plot (column tokens (lockup_slice 365 df))
            (truediv (sub_scalar (column multiplier (lockup_slice 365 df)) base_multiplier) 100)
            "b-" None;
          plt_style "xlabel"; plt_style "ylabel"; plt_style "title"; plt_style "grid";
          plt_xlim (F64.of_int 0) (upper_limit (column tokens (lockup_slice 365 df)));
          plt_subplot 2 1 2; plt_style "axis"; plt_style "axis";
          plt_table table ["Amount"; "Multiplier"; "Total Bonus"]%string;
          plt_style "auto_set_font_size"; plt_style "set_fontsize"; plt_style "scale";
          plt_style "title"; plt_style "tight_layout"; plt_show ])
       (consumed w)).
Proof.
  intros Hr Hfin Htable. unfold bonus_chart, deref. run_monad.
  rewrite Hr. simpl. rewrite Hfin. simpl. rewrite Htable. simpl.
  by rewrite <- !app_assoc.
Qed.

End BonusRun.

End Bonus.

(** Rows at 365 days with the same token amount stay in table order. *)
Example rows_365_keeps_table_order :
  rows_365 (mkFrame [mkRow 100 365 15000; mkRow 200 365 15300; mkRow 100 365 15100] None)
  = [mkRow 100 365 15000; mkRow 100 365 15100; mkRow 200 365 15300].
Proof. reflexivity. Qed.



(** ** The pivot *)

Section Pivot.

Lemma mask_size (keys : list (Z * Z)) :
  (size (list_to_set keys : gset (Z * Z)) <= length keys)%nat
  /\ (size (list_to_set keys : gset (Z * Z)) = length keys -> NoDup keys).
Proof.
  induction keys as [|k keys [IHle IHnodup]].
  - split; [|intros _; constructor].
    rewrite size_list_to_set by constructor. done.
  - rewrite list_to_set_cons. simpl length.
    destruct (decide (k ∈ keys)) as [Hin|Hnotin].
    + assert ({[k]} ∪ list_to_set keys = (list_to_set keys : gset (Z * Z))) as ->
        by (apply subseteq_union_1_L; set_solver).
      split; [lia|intros ?; lia].
    + rewrite size_union, size_singleton by set_solver.
      split; [lia|]. intros Hsize. apply NoDup_cons. split; [done|].
      apply IHnodup. lia.
Qed.

(** The mask has fewer cells than there are rows exactly when two rows share
    their (tokens, lockup_days) pair. *)
Lemma mask_detects_duplicates (keys : list (Z * Z)) :
  (size (list_to_set keys : gset (Z * Z)) <? length keys)%nat = true <-> ~ NoDup keys.
Proof.
  destruct (mask_size keys) as [Hle Hnodup]. rewrite Nat.ltb_lt. split.
  - intros Hlt Hnd. apply (size_list_to_set (C := gset (Z * Z))) in Hnd. lia.
  - intros Hdup. destruct (decide (size (list_to_set keys : gset (Z * Z)) = length keys)).
    + by destruct Hdup; apply Hnodup.
    + lia.
Qed.

Lemma combine_lookup {A B} (l : list A) (l' : list B) (k : nat) (a : A) (b : B) :
  l !! k = Some a -> l' !! k = Some b -> combine l l' !! k = Some (a, b).
Proof.
  revert l' k; induction l as [|x l IH]; intros [|y l'] [|k]; simpl; try done.
  - by intros [= ->] [= ->].
  - apply IH.
Qed.

Lemma combine_fst {A B} (l : list A) (l' : list B) :
  length l = length l' -> (combine l l').*1 = l.
Proof.
  revert l'; induction l as [|x l IH]; intros [|y l']; simpl; try done.
  intros [= Hlen]. f_equal. by apply IH.
Qed.

End Pivot.

(** C3, as stated, fails: with the combination (200, 365) missing the pivot
    does not raise; it returns the grid with NaN in that cell. *)
Lemma pivot_fills_missing_cell_with_nan :
  ~ In (200, 365) (pair_keys (derived_frame incomplete_rows))
  /\ pivot (derived_frame incomplete_rows)
     = Ok (mkPivot [100; 200] [30; 365]
             [[F64.literal 10000 4; F64.literal 15000 4];
              [F64.literal 10050 4; F64.nan]]).
Proof.
  split; [|by vm_compute].
  simpl. intros [H|[H|[H|[]]]]; discriminate H.
Qed.

(** C3 (amended): the pivot raises its reshape error exactly when two rows
    share their (tokens, lockup_days) pair. Otherwise it succeeds: the row index
    is the sorted distinct token amounts, the column index the sorted distinct
    lockup periods, and a cell holds the [multiplier_decimal] of the row with
    that pair, or NaN when no row has it. On the four rows of the 2x2 grid it
    succeeds with row index [100, 200] and column index [30, 365]. *)
Theorem pivot_duplicates_only :
  (forall (df : DataFrame) (col : list float),
     multiplier_decimal df = Some col ->
     length col = row_count df ->
     (pivot df = Raise (ValueError "Index contains duplicate entries, cannot reshape")
      <-> ~ NoDup (pair_keys df))
     /\ (NoDup (pair_keys df) ->
         exists p, pivot df = Ok p
           /\ pivot_index p = sorted (unique (column tokens df))
           /\ pivot_columns p = sorted (unique (column lockup_days df))
           /\ forall i j t l,
                pivot_index p !! i = Some t -> pivot_columns p !! j = Some l ->
                exists line v,
                  pivot_values p !! i = Some line /\ line !! j = Some v
                  /\ (forall k row d,
                        rows df !! k = Some row -> col !! k = Some d ->
                        tokens row = t -> lockup_days row = l -> v = d)
                  /\ (~ In (t, l) (pair_keys df) -> v = F64.nan)))
  /\ pivot (derived_frame grid_rows)
     = Ok (mkPivot [100; 200] [30; 365]
             [[F64.literal 10000 4; F64.literal 15000 4];
              [F64.literal 10050 4; F64.literal 15200 4]]).
Proof.
  split; [|by vm_compute].
  intros df col Hcol Hlen.
  assert (length (pair_keys df) = length col) as Hkeys
    by (unfold pair_keys; rewrite length_map; by rewrite Hlen).
  unfold pivot. rewrite Hcol.
  destruct (size (list_to_set (pair_keys df) : gset (Z * Z)) <? length (pair_keys df))%nat
    eqn:Hmask.
  - apply mask_detects_duplicates in Hmask. split; [done|]. by intros Hnd.
  - assert (NoDup (pair_keys df)) as Hnd.
    { destruct (mask_size (pair_keys df)) as [Hle Hnodup].
      apply Hnodup. apply Nat.ltb_ge in Hmask. lia. }
    split; [split; [done|by intros Hdup]|].
    intros _. eexists. split; [reflexivity|]. simpl.
    split; [done|]. split; [done|].
    intros i j t l Hi Hj. eexists _, _.
    split; [by rewrite lookup_map, Hi|]. split; [by rewrite lookup_map, Hj|].
    split.
    + intros k row d Hrow Hd <- <-.
      rewrite (elem_of_list_to_map_1 _ _ d); [done| |].
      * by rewrite combine_fst.
      * apply list_elem_of_lookup_2 with k. apply combine_lookup; [|done].
        unfold pair_keys. by rewrite lookup_map, Hrow.
    + intros Hmissing. rewrite not_elem_of_list_to_map_1; [done|].
      rewrite combine_fst by done. by rewrite list_elem_of_In.
Qed.

Lemma pivot_duplicates_only_witness :
  multiplier_decimal (derived_frame grid_rows)
  = Some (truediv (map multiplier grid_rows) 10000)
  /\ length (truediv (map multiplier grid_rows) 10000) = row_count (derived_frame grid_rows)
  /\ NoDup (pair_keys (derived_frame grid_rows))
  /\ exists p, pivot (derived_frame grid_rows) = Ok p
       /\ pivot_index p = [100; 200] /\ pivot_columns p = [30; 365].
Proof.
  assert (NoDup (pair_keys (derived_frame grid_rows))) as Hnd
    by (apply (bool_decide_unpack _); by vm_compute).
  split; [reflexivity|]. split; [reflexivity|]. split; [exact Hnd|].
  destruct (proj1 pivot_duplicates_only (derived_frame grid_rows) _ eq_refl eq_refl)
    as [_ Hok].
  destruct (Hok Hnd) as (p & Hp & Hindex & Hcolumns & _).
  exists p. split; [exact Hp|]. split.
  - rewrite Hindex. reflexivity.
  - rewrite Hcolumns. reflexivity.
Defined.

(** * Further properties of the renderer, the loader and the top-level flow *)

(** ** What the charts touch *)

Section Drawing.

Lemma only_draws_ret {A} (a : A) : only_draws (mret a).
Proof. intros w. repeat split; try done. exists []. by rewrite app_nil_r. Qed.

Lemma only_draws_raise {A} (e : exn) : only_draws (raise (A := A) e).
Proof. intros w. repeat split; try done. exists []. by rewrite app_nil_r. Qed.

Lemma only_draws_lift {A} (res : result A) : only_draws (lift res).
Proof. intros w. repeat split; try done. exists []. by rewrite app_nil_r. Qed.

Lemma only_draws_plt (c : plt_call) : only_draws (plt c).
Proof. intros w. repeat split; try done. by exists [c]. Qed.

Lemma only_draws_deref (r : loc) : only_draws (deref r).
Proof.
  intros w. unfold deref. destruct (heap w !! r); simpl;
    (repeat split; try done; exists []; by rewrite app_nil_r).
Qed.

Lemma only_draws_bind {A B} (m : M A) (f : A -> M B) :
  only_draws m -> (forall a, only_draws (f a)) -> only_draws (m ≫= f).
Proof.
  intros Hm Hf w. unfold mbind, M_bind.
  destruct (Hm w) as (Hfiles & Hheap & Hout & Hsrc & calls & Hcalls).
  destruct (m w) as [[a|e] w1]; simpl in *.
  - destruct (Hf a w1) as (Hfiles' & Hheap' & Hout' & Hsrc' & calls' & Hcalls').
    repeat split; try congruence.
    exists (calls ++ calls'). by rewrite Hcalls', Hcalls, app_assoc.
  - repeat split; try done. by exists calls.
Qed.

Lemma only_draws_for_each {A} (xs : list A) (body : A -> M unit) :
  (forall x, only_draws (body x)) -> only_draws (for_each xs body).
Proof.
  intros Hbody. induction xs as [|x xs IH]; simpl.
  - apply only_draws_ret.
  - apply only_draws_bind; [apply Hbody|]. intros _. apply IH.
Qed.

Lemma only_draws_collect {A B} (xs : list A) (body : A -> M B) (acc : list B) :
  (forall x, only_draws (body x)) -> only_draws (collect xs body acc).
Proof.
  intros Hbody. revert acc. induction xs as [|x xs IH]; intros acc; simpl.
  - apply only_draws_ret.
  - apply only_draws_bind; [apply Hbody|]. intros y. apply IH.
Qed.

Lemma only_draws_list_index {A} (xs : list A) (i : nat) : only_draws (list_index xs i).
Proof.
  unfold list_index. destruct (xs !! i); [apply only_draws_ret|apply only_draws_raise].
Qed.

Lemma only_draws_getitem_decimal (df : DataFrame) : only_draws (getitem_decimal df).
Proof.
  unfold getitem_decimal.
  destruct (multiplier_decimal df); [apply only_draws_ret|apply only_draws_raise].
Qed.

Lemma only_draws_xlim (hi : float) : only_draws (xlim hi).
Proof.
  unfold xlim. destruct (F64.isfinite hi); [apply only_draws_plt|apply only_draws_raise].
Qed.

Lemma only_draws_comparison_row (row : RowSeries) : only_draws (comparison_row row).
Proof.
  unfold comparison_row. apply only_draws_bind.
  - unfold scalar_int, int_of_float. destruct (cell_tokens row) as [z|f].
    + apply only_draws_ret.
    + destruct (F64.to_int f); [apply only_draws_ret|].
      destruct (F64.isnan f); apply only_draws_raise.
  - intros amount. apply only_draws_bind.
    + destruct (cell_multiplier_decimal row); [apply only_draws_ret|apply only_draws_raise].
    + intros decimal. apply only_draws_ret.
Qed.

Lemma only_draws_grid_at (values : list (list float)) (i j : nat) :
  only_draws (grid_at values i j).
Proof.
  unfold grid_at. destruct (values !! i); [apply only_draws_list_index|apply only_draws_raise].
Qed.

End Drawing.

Ltac draws :=
  repeat match goal with
    | |- only_draws (plt _) => apply only_draws_plt
    | |- only_draws (mret _) => apply only_draws_ret
    | |- only_draws (raise _) => apply only_draws_raise
    | |- only_draws (lift _) => apply only_draws_lift
    | |- only_draws (deref _) => apply only_draws_deref
    | |- only_draws (xlim _) => apply only_draws_xlim
    | |- only_draws (list_index _ _) => apply only_draws_list_index
    | |- only_draws (getitem_decimal _) => apply only_draws_getitem_decimal
    | |- only_draws (comparison_row _) => apply only_draws_comparison_row
    | |- only_draws (grid_at _ _ _) => apply only_draws_grid_at
    | |- only_draws (for_each _ _) => apply only_draws_for_each; intros ?
    | |- only_draws (collect _ _ _) => apply only_draws_collect; intros ?
    | |- only_draws (mbind _ _) => apply only_draws_bind; [|intros ?]
    | |- only_draws (let '(_, _) := ?p in _) => destruct p
    end.

Lemma line_chart_only_draws (r : loc) : only_draws (line_chart r).
Proof. unfold line_chart. draws. Qed.

Lemma bonus_chart_only_draws (r : loc) : only_draws (bonus_chart r).
Proof. unfold bonus_chart. draws. Qed.

Lemma heatmap_only_draws (r : loc) : only_draws (heatmap r).
Proof. unfold heatmap. draws. Qed.

Lemma bind_deref {A} (r : loc) (df : DataFrame) (k : DataFrame -> M A) (w : world) :
  heap w !! r = Some df -> (deref r ≫= k) w = k df w.
Proof. intros Hr. unfold mbind, M_bind, deref. by rewrite Hr. Qed.

(** X1: Whatever its outcome, the renderer assigns the derived column into the
    caller's table and otherwise only draws: it prints nothing, reads no file
    and touches no other object. *)
Theorem create_multiplier_charts_frame (r : loc) (df : DataFrame) (w : world) :
  heap w !! r = Some df ->
  heap (snd (create_multiplier_charts r w))
  = <[r := mkFrame (rows df) (Some (truediv (column multiplier df) 10000))]> (heap w)
  /\ files (snd (create_multiplier_charts r w)) = files w
  /\ stdout (snd (create_multiplier_charts r w)) = stdout w
  /\ consumed (snd (create_multiplier_charts r w)) = consumed w
  /\ exists calls, canvas (snd (create_multiplier_charts r w)) = canvas w ++ calls.
Proof.
  intros Hr.
  set (w1 := mkWorld (files w)
               (<[r := mkFrame (rows df) (Some (truediv (column multiplier df) 10000))]> (heap w))
               (stdout w) (canvas w) (consumed w)).
  assert (only_draws (line_chart r;; bonus_chart r;; heatmap r)) as Hrest.
  { apply only_draws_bind; [apply line_chart_only_draws|intros _].
    apply only_draws_bind; [apply bonus_chart_only_draws|intros _].
    apply heatmap_only_draws. }
  assert (create_multiplier_charts r w = (line_chart r;; bonus_chart r;; heatmap r) w1) as ->.
  { unfold create_multiplier_charts. unfold mbind at 1. unfold M_bind at 1.
    by rewrite (derive_run r df w Hr). }
  destruct (Hrest w1) as (Hfiles & Hheap & Hout & Hsrc & calls & Hcalls).
  split_and!; try done. by exists calls.
Qed.

Lemma create_multiplier_charts_frame_witness :
  heap (world_with_table incomplete_rows) !! 0%nat = Some (mkFrame incomplete_rows None)
  /\ heap (snd (create_multiplier_charts 0%nat (world_with_table incomplete_rows)))
     = {[ 0%nat := derived_frame incomplete_rows ]}
  /\ stdout (snd (create_multiplier_charts 0%nat (world_with_table incomplete_rows))) = [].
Proof.
  assert (heap (world_with_table incomplete_rows) !! 0%nat = Some (mkFrame incomplete_rows None))
    as Hr by reflexivity.
  split; [exact Hr|].
  destruct (create_multiplier_charts_frame 0%nat _ _ Hr) as (Hheap & _ & Hout & _).
  split; [|exact Hout].
  rewrite Hheap. simpl. apply insert_singleton_eq.
Defined.

(** ** When the charts complete *)

Section Success.

Lemma succeeds_ret {A} (a : A) : succeeds (mret a).
Proof. intros w. by exists a, w. Qed.

Lemma succeeds_plt (c : plt_call) : succeeds (plt c).
Proof. intros w. by eexists tt, _. Qed.

Lemma succeeds_bind {A B} (m : M A) (f : A -> M B) :
  succeeds m -> (forall a, succeeds (f a)) -> succeeds (m ≫= f).
Proof.
  intros Hm Hf w. unfold mbind, M_bind.
  destruct (Hm w) as (a & w1 & ->). apply Hf.
Qed.

Lemma succeeds_bind_returns {A B} (m : M A) (a : A) (f : A -> M B) :
  returns m a -> succeeds (f a) -> succeeds (m ≫= f).
Proof.
  intros Hm Hf w. unfold mbind, M_bind. rewrite Hm. apply Hf.
Qed.

Lemma succeeds_for_each {A} (xs : list A) (body : A -> M unit) :
  (forall x, In x xs -> succeeds (body x)) -> succeeds (for_each xs body).
Proof.
  induction xs as [|x xs IH]; intros Hbody; simpl.
  - apply succeeds_ret.
  - apply succeeds_bind; [apply Hbody; by left|]. intros _.
    apply IH. intros y Hy. apply Hbody. by right.
Qed.

Lemma succeeds_xlim (hi : float) : F64.isfinite hi = true -> succeeds (xlim hi).
Proof. intros Hfin. unfold xlim. rewrite Hfin. apply succeeds_plt. Qed.

Lemma returns_getitem_decimal (df : DataFrame) (col : list float) :
  multiplier_decimal df = Some col -> returns (getitem_decimal df) col.
Proof. intros Hcol w. unfold getitem_decimal. by rewrite Hcol. Qed.

Lemma returns_list_index {A} (xs : list A) (i : nat) (x : A) :
  xs !! i = Some x -> returns (list_index xs i) x.
Proof. intros Hi w. unfold list_index. by rewrite Hi. Qed.

Lemma returns_grid_at (values : list (list float)) (i j : nat) (line : list float) (v : float) :
  values !! i = Some line -> line !! j = Some v -> returns (grid_at values i j) v.
Proof. intros Hi Hj w. unfold grid_at. rewrite Hi. by apply returns_list_index. Qed.

Lemma enumerate_in {A} (xs : list A) (i : nat) (x : A) :
  In (i, x) (enumerate xs) -> (i < length xs)%nat.
Proof.
  unfold enumerate. intros Hin%in_combine_l. apply in_seq in Hin. lia.
Qed.

End Success.

Ltac charts_succeed :=
  repeat match goal with
    | |- succeeds (plt _) => apply succeeds_plt
    | |- succeeds (mret _) => apply succeeds_ret
    | |- succeeds (mbind _ (plt _)) => apply succeeds_bind; [apply succeeds_plt|intros ?]
    end.

Section ChartsComplete.

Variable r : loc.
Variable df : DataFrame.
Hypothesis in_range : Forall (fun row => 0 <= tokens row < 2 ^ 53) (rows df).

Lemma tokens_limit_finite :
  rows df <> [] -> F64.isfinite (upper_limit (column tokens df)) = true.
Proof.
  intros Hne. apply upper_limit_finite.
  - unfold column. by intros Hnil%map_eq_nil.
  - unfold column. by apply List.Forall_map.
Qed.

Lemma line_chart_ok (col : list float) (w : world) :
  heap w !! r = Some df ->
  multiplier_decimal df = Some col ->
  rows df <> [] ->
  (length (unique (column lockup_days df)) <= 5)%nat ->
  exists w', line_chart r w = (Ok tt, w').
Proof.
  intros Hr Hcol Hne Hfew. unfold line_chart. rewrite (bind_deref r df) by done.
  match goal with |- exists w', ?k w = _ => assert (succeeds k) as Hk end.
  { charts_succeed. apply succeeds_bind.
    - apply succeeds_for_each. intros [i lockup] Hin%enumerate_in.
      rewrite sorted_length in Hin.
      destruct (lockup_slice_has_decimal lockup df col Hcol) as [ys Hys].
      eapply succeeds_bind_returns; [by apply returns_getitem_decimal|].
      assert (is_Some (firstn (length (sorted (unique (column lockup_days df)))) palette !! i))
        as [color Hcolor].
      { apply lookup_lt_is_Some_2. rewrite length_take, sorted_length. simpl. lia. }
      eapply succeeds_bind_returns; [by apply returns_list_index|].
      apply succeeds_plt.
    - intros _. charts_succeed.
      apply succeeds_bind; [by apply succeeds_xlim, tokens_limit_finite|intros _].
      charts_succeed. }
  destruct (Hk w) as ([] & w' & Hw'). by exists w'.
Qed.

Lemma bonus_chart_ok (w : world) :
  heap w !! r = Some df ->
  multiplier_decimal df = Some (truediv (column multiplier df) 10000) ->
  Exists (fun row => lockup_days row = 365) (rows df) ->
  exists w', bonus_chart r w = (Ok tt, w').
Proof.
  intros Hr Hcol H365.
  set (g := fun row => F64.div (F64.of_int (multiplier row)) (F64.of_int 10000)).
  assert (multiplier_decimal df = Some (map g (rows df))) as Hcol'
    by (rewrite Hcol; unfold truediv, column; by rewrite map_map).
  eexists. apply (bonus_chart_run r df w (map summary_line (rows_365 df)) Hr).
  - unfold column. rewrite rows_365_slice. apply upper_limit_finite.
    + intros Hnil%map_eq_nil. by apply (rows_365_nonempty df).
    + apply List.Forall_map. by apply rows_365_bounds.
  - intros w'. unfold iterrows.
    rewrite (lockup_slice_decimal 365 df g Hcol'), rows_365_slice, combine_map_r, map_map.
    apply (collect_pure _ summary_line).
    eapply Forall_impl; [apply (rows_365_bounds df _ in_range)|].
    intros row Hrow w''. by apply comparison_row_run.
Qed.

End ChartsComplete.

Section HeatmapRuns.

Lemma pivot_ok (df : DataFrame) (col : list float) :
  multiplier_decimal df = Some col ->
  NoDup (pair_keys df) ->
  pivot df
  = Ok (mkPivot (sorted (unique (column tokens df))) (sorted (unique (column lockup_days df)))
          (map (fun t =>
                  map (fun l =>
                         default F64.nan
                           ((list_to_map (combine (pair_keys df) col) : gmap (Z * Z) float)
                              !! (t, l)))
                      (sorted (unique (column lockup_days df))))
               (sorted (unique (column tokens df))))).
Proof.
  intros Hcol Hnd. unfold pivot. rewrite Hcol.
  destruct (size (list_to_set (pair_keys df) : gset (Z * Z)) <? length (pair_keys df))%nat
    eqn:Hmask; [|done].
  by apply mask_detects_duplicates in Hmask.
Qed.

Lemma pivot_duplicate (df : DataFrame) (col : list float) :
  multiplier_decimal df = Some col ->
  ~ NoDup (pair_keys df) ->
  pivot df = Raise (ValueError "Index contains duplicate entries, cannot reshape").
Proof.
  intros Hcol Hdup. unfold pivot. rewrite Hcol.
  apply mask_detects_duplicates in Hdup. by rewrite Hdup.
Qed.

Lemma heatmap_ok (r : loc) (df : DataFrame) (col : list float) (w : world) :
  heap w !! r = Some df ->
  multiplier_decimal df = Some col ->
  NoDup (pair_keys df) ->
  exists w', heatmap r w = (Ok tt, w').
Proof.
  intros Hr Hcol Hnd. unfold heatmap. rewrite (bind_deref r df) by done.
  rewrite (pivot_ok df col Hcol Hnd).
  match goal with |- exists w', ?k w = _ => assert (succeeds k) as Hk end.
  { charts_succeed. eapply succeeds_bind_returns; [by intros w0|].
    cbn [pivot_index pivot_columns pivot_values]. charts_succeed.
    apply succeeds_bind; [|intros _; charts_succeed].
    apply succeeds_for_each. intros i Hi%in_seq.
    apply succeeds_for_each. intros j Hj%in_seq.
    destruct (lookup_lt_is_Some_2 (sorted (unique (column tokens df))) i) as [t Ht]; [lia|].
    destruct (lookup_lt_is_Some_2 (sorted (unique (column lockup_days df))) j) as [l Hl]; [lia|].
    eapply succeeds_bind_returns; [|apply succeeds_plt].
    eapply returns_grid_at.
    - by rewrite lookup_map, Ht.
    - by rewrite lookup_map, Hl. }
  destruct (Hk w) as ([] & w' & Hw'). by exists w'.
Qed.

Lemma heatmap_duplicate (r : loc) (df : DataFrame) (col : list float) (w : world) :
  heap w !! r = Some df ->
  multiplier_decimal df = Some col ->
  ~ NoDup (pair_keys df) ->
  heatmap r w
  = (Raise (ValueError "Index contains duplicate entries, cannot reshape"),
     mkWorld (files w) (heap w) (stdout w) (canvas w ++ [plt_figure 12 8]) (consumed w)).
Proof.
  intros Hr Hcol Hdup. unfold heatmap. rewrite (bind_deref r df) by done.
  by rewrite (pivot_duplicate df col Hcol Hdup).
Qed.

End HeatmapRuns.

Section Renderer.

Lemma create_after_derive (r : loc) (df : DataFrame) (w : world) :
  heap w !! r = Some df ->
  create_multiplier_charts r w
  = (line_chart r;; bonus_chart r;; heatmap r) (after_derive r df w).
Proof.
  intros Hr. unfold create_multiplier_charts. unfold mbind at 1. unfold M_bind at 1.
  by rewrite (derive_run r df w Hr).
Qed.

Lemma after_derive_lookup (r : loc) (df : DataFrame) (w : world) :
  heap (after_derive r df w) !! r
  = Some (mkFrame (rows df) (Some (truediv (column multiplier df) 10000))).
Proof. apply lookup_insert_eq. Qed.

Lemma bonus_chart_empty_selection (r : loc) (df : DataFrame) (w : world) :
  heap w !! r = Some df ->
  ~ Exists (fun row => lockup_days row = 365) (rows df) ->
  fst (bonus_chart r w) = Raise (ValueError "Axis limits cannot be NaN or Inf").
Proof.
  intros Hr Hnone%Forall_Exists_neg.
  assert (rows (lockup_slice 365 df) = []) as Hrows.
  { rewrite lockup_slice_rows, filter_none; [done|].
    eapply Forall_impl; [exact Hnone|]. intros row Hrow. by apply Z.eqb_neq. }
  unfold bonus_chart, deref. run_monad. rewrite Hr. simpl.
  unfold column. by rewrite Hrows.
Qed.

Lemma chart_keeps_heap (m : M unit) (w w' : world) (res : result unit) :
  only_draws m -> m w = (res, w') -> heap w' = heap w.
Proof.
  intros Hm Hrun. destruct (Hm w) as (_ & Hheap & _). by rewrite Hrun in Hheap.
Qed.

End Renderer.

(** X2: The renderer draws all three charts and returns exactly when the table
    has at most five distinct lockup periods, a row at 365 days and no two rows
    with the same (tokens, lockup_days) pair; in every other case it raises.
    (For token amounts that are non-negative integers below 2^53.) *)
Theorem create_multiplier_charts_completes_iff (r : loc) (df : DataFrame) (w : world) :
  heap w !! r = Some df ->
  Forall (fun row => 0 <= tokens row < 2 ^ 53) (rows df) ->
  fst (create_multiplier_charts r w) = Ok tt <-> renderable df.
Proof.
  intros Hr Hrange. rewrite (create_after_derive r df w Hr).
  set (df1 := mkFrame (rows df) (Some (truediv (column multiplier df) 10000))).
  pose proof (after_derive_lookup r df w) as H1. fold df1 in H1.
  set (w1 := after_derive r df w) in *.
  unfold renderable, mbind, M_bind. split.
  - intros Hok.
    destruct (le_lt_dec (length (unique (column lockup_days df))) 5) as [Hfew|Hmany].
    2:{ destruct (line_chart_palette_exhausted r df1 _ w1 H1 eq_refl Hmany) as (w2 & E2 & _).
        by rewrite E2 in Hok. }
    destruct (line_chart r w1) as [[[]|e] w2] eqn:E2; [|done].
    pose proof (chart_keeps_heap _ _ _ _ (line_chart_only_draws r) E2) as Hheap2.
    assert (heap w2 !! r = Some df1) as H2 by (by rewrite Hheap2).
    destruct (decide (Exists (fun row => lockup_days row = 365) (rows df))) as [H365|Hnone].
    2:{ pose proof (bonus_chart_empty_selection r df1 w2 H2 Hnone) as E3.
        destruct (bonus_chart r w2) as [[[]|e] w3]; simpl in E3; [done|].
        simpl in Hok. done. }
    destruct (bonus_chart r w2) as [[[]|e] w3] eqn:E3; [|done].
    pose proof (chart_keeps_heap _ _ _ _ (bonus_chart_only_draws r) E3) as Hheap3.
    assert (heap w3 !! r = Some df1) as H3 by (by rewrite Hheap3).
    destruct (decide (NoDup (pair_keys df))) as [Hnd|Hdup]; [done|].
    by rewrite (heatmap_duplicate r df1 _ w3 H3 eq_refl Hdup) in Hok.
  - intros (Hfew & H365 & Hnd).
    assert (rows df <> []) as Hne by (intros Hnil; rewrite Hnil in H365; by inversion H365).
    destruct (line_chart_ok r df1 Hrange _ w1 H1 eq_refl Hne Hfew) as [w2 E2].
    rewrite E2.
    pose proof (chart_keeps_heap _ _ _ _ (line_chart_only_draws r) E2) as Hheap2.
    assert (heap w2 !! r = Some df1) as H2 by (by rewrite Hheap2).
    destruct (bonus_chart_ok r df1 Hrange w2 H2 eq_refl H365) as [w3 E3].
    rewrite E3.
    pose proof (chart_keeps_heap _ _ _ _ (bonus_chart_only_draws r) E3) as Hheap3.
    assert (heap w3 !! r = Some df1) as H3 by (by rewrite Hheap3).
    destruct (heatmap_ok r df1 _ w3 H3 eq_refl Hnd) as [w4 E4].
    by rewrite E4.
Qed.

Lemma create_multiplier_charts_completes_iff_witness :
  heap (world_with_table grid_rows) !! 0%nat = Some (mkFrame grid_rows None)
  /\ Forall (fun row => 0 <= tokens row < 2 ^ 53) grid_rows
  /\ renderable (mkFrame grid_rows None)
  /\ fst (create_multiplier_charts 0%nat (world_with_table grid_rows)) = Ok tt.
Proof.
  assert (heap (world_with_table grid_rows) !! 0%nat = Some (mkFrame grid_rows None))
    as Hr by reflexivity.
  assert (Forall (fun row => 0 <= tokens row < 2 ^ 53) (rows (mkFrame grid_rows None)))
    as Hrange by (repeat constructor; simpl; lia).
  assert (renderable (mkFrame grid_rows None)) as Hok.
  { split; [vm_compute; lia|]. split; [right; left; reflexivity|].
    apply (bool_decide_unpack _). by vm_compute. }
  split; [exact Hr|]. split; [exact Hrange|]. split; [exact Hok|].
  exact (proj2 (create_multiplier_charts_completes_iff 0%nat _ _ Hr Hrange) Hok).
Defined.

(** X3: With two rows for the same (tokens, lockup_days) pair, and nothing else
    in the way, the first two charts are drawn and the renderer raises the
    pivot's [ValueError] from the heatmap. *)
Theorem create_multiplier_charts_duplicate_pair (r : loc) (df : DataFrame) (w : world) :
  heap w !! r = Some df ->
  Forall (fun row => 0 <= tokens row < 2 ^ 53) (rows df) ->
  (length (unique (column lockup_days df)) <= 5)%nat ->
  Exists (fun row => lockup_days row = 365) (rows df) ->
  ~ NoDup (pair_keys df) ->
  exists w2 w3,
    line_chart r (after_derive r df w) = (Ok tt, w2)
    /\ bonus_chart r w2 = (Ok tt, w3)
    /\ create_multiplier_charts r w
       = (Raise (ValueError "Index contains duplicate entries, cannot reshape"),
          mkWorld (files w3) (heap w3) (stdout w3) (canvas w3 ++ [plt_figure 12 8])
            (consumed w3)).
Proof.
  intros Hr Hrange Hfew H365 Hdup. rewrite (create_after_derive r df w Hr).
  set (df1 := mkFrame (rows df) (Some (truediv (column multiplier df) 10000))).
  pose proof (after_derive_lookup r df w) as H1. fold df1 in H1.
  set (w1 := after_derive r df w) in *.
  assert (rows df <> []) as Hne by (intros Hnil; rewrite Hnil in H365; by inversion H365).
  destruct (line_chart_ok r df1 Hrange _ w1 H1 eq_refl Hne Hfew) as [w2 E2].
  pose proof (chart_keeps_heap _ _ _ _ (line_chart_only_draws r) E2) as Hheap2.
  assert (heap w2 !! r = Some df1) as H2 by (by rewrite Hheap2).
  destruct (bonus_chart_ok r df1 Hrange w2 H2 eq_refl H365) as [w3 E3].
  pose proof (chart_keeps_heap _ _ _ _ (bonus_chart_only_draws r) E3) as Hheap3.
  assert (heap w3 !! r = Some df1) as H3 by (by rewrite Hheap3).
  exists w2, w3. split; [done|]. split; [done|].
  unfold mbind, M_bind. rewrite E2, E3.
  by rewrite (heatmap_duplicate r df1 _ w3 H3 eq_refl Hdup).
Qed.

Lemma create_multiplier_charts_duplicate_pair_witness :
  let table := [mkRow 100 365 15000; mkRow 100 365 15100] in
  heap (world_with_table table) !! 0%nat = Some (mkFrame table None)
  /\ ~ NoDup (pair_keys (mkFrame table None))
  /\ fst (create_multiplier_charts 0%nat (world_with_table table))
     = Raise (ValueError "Index contains duplicate entries, cannot reshape").
Proof.
  intros table.
  assert (heap (world_with_table table) !! 0%nat = Some (mkFrame table None)) as Hr
    by reflexivity.
  assert (Forall (fun row => 0 <= tokens row < 2 ^ 53) (rows (mkFrame table None))) as Hrange
    by (repeat constructor; simpl; lia).
  assert (length (unique (column lockup_days (mkFrame table None))) <= 5)%nat as Hfew
    by (vm_compute; lia).
  assert (Exists (fun row => lockup_days row = 365) (rows (mkFrame table None))) as H365
    by (left; reflexivity).
  assert (~ NoDup (pair_keys (mkFrame table None))) as Hdup.
  { apply (bool_decide_unpack _). by vm_compute. }
  split; [exact Hr|]. split; [exact Hdup|].
  destruct (create_multiplier_charts_duplicate_pair 0%nat _ _ Hr Hrange Hfew H365 Hdup)
    as (w2 & w3 & _ & _ & Hrun).
  rewrite Hrun. reflexivity.
Defined.

(** X4: On a table without rows the renderer assigns an empty column, opens the
    first figure, plots no line and raises [ValueError] at the x-axis limit:
    the maximum of an empty column is NaN. *)
Theorem create_multiplier_charts_empty_table (r : loc) (df : DataFrame) (w : world) :
  heap w !! r = Some df ->
  rows df = [] ->
  create_multiplier_charts r w
  = (Raise (ValueError "Axis limits cannot be NaN or Inf"),
     mkWorld (files w) (<[r := mkFrame [] (Some [])]> (heap w)) (stdout w)
       (canvas w ++ [plt_figure 14 10; plt_style "xlabel"; plt_style "ylabel";
                     plt_style "title"; plt_style "legend"; plt_style "grid"])
       (consumed w)).
Proof.
  intros Hr Hrows. rewrite (create_after_derive r df w Hr).
  unfold after_derive, column. rewrite Hrows.
  unfold line_chart, deref, mbind, M_bind. simpl. rewrite lookup_insert_eq. simpl.
  by rewrite <- !app_assoc.
Qed.

Lemma create_multiplier_charts_empty_table_witness :
  heap (world_with_table []) !! 0%nat = Some (mkFrame [] None)
  /\ fst (create_multiplier_charts 0%nat (world_with_table []))
     = Raise (ValueError "Axis limits cannot be NaN or Inf").
Proof.
  assert (heap (world_with_table []) !! 0%nat = Some (mkFrame [] None)) as Hr by reflexivity.
  split; [exact Hr|].
  rewrite (create_multiplier_charts_empty_table 0%nat _ _ Hr eq_refl). reflexivity.
Defined.

(** ** The lines of the first chart *)

Section Lines.

Lemma for_each_emit {A} (f : A -> plt_call) (body : A -> M unit) (xs : list A) :
  (forall x, In x xs -> forall w, body x w = plt (f x) w) ->
  forall w,
    for_each xs body w
    = (Ok tt, mkWorld (files w) (heap w) (stdout w) (canvas w ++ map f xs) (consumed w)).
Proof.
  induction xs as [|x xs IH]; intros Hbody w; simpl.
  - rewrite app_nil_r. by destruct w.
  - unfold mbind, M_bind. rewrite Hbody by (by left). unfold plt at 1.
    rewrite IH by (intros y Hy; apply Hbody; by right). simpl.
    by rewrite <- app_assoc.
Qed.


Local Opaque lockup_slice sorted unique upper_limit palette.


End Lines.



(** ** Distinct values in ascending order *)

Section Distinct.

Lemma unique_from_spec (seen xs : list Z) :
  NoDup (unique_from seen xs)
  /\ forall x, In x (unique_from seen xs) <-> In x xs /\ ~ In x seen.
Proof.
  revert seen; induction xs as [|y xs IH]; intros seen; simpl.
  - split; [constructor|]. tauto.
  - destruct (existsb (Z.eqb y) seen) eqn:Hseen.
    + apply existsb_exists in Hseen as (z & Hz & ->%Z.eqb_eq).
      destruct (IH seen) as [Hnd Hin]. split; [done|].
      intros x. rewrite Hin. split; [tauto|]. intros [[->|Hx] Hnot]; tauto.
    + assert (~ In y seen) as Hy.
      { intros Hy. assert (existsb (Z.eqb y) seen = true) as H; [|congruence].
        apply existsb_exists. exists y. split; [done|]. apply Z.eqb_refl. }
      destruct (IH (y :: seen)) as [Hnd Hin]. split.
      * apply NoDup_cons. split; [|done]. rewrite list_elem_of_In, Hin. simpl. tauto.
      * intros x. simpl. rewrite Hin. simpl.
        destruct (Z.eq_dec y x) as [->|Hne]; tauto.
Qed.

Lemma sorted_le_nodup_lt (l : list Z) :
  Sorted Z.le l -> NoDup l -> Sorted Z.lt l.
Proof.
  induction 1 as [|a l Hsorted IH Hhd]; intros Hnd; [constructor|].
  apply NoDup_cons in Hnd as [Hnotin Hnd].
  constructor; [by apply IH|].
  destruct Hhd as [|b l Hab]; constructor.
  assert (a <> b) by (intros ->; apply Hnotin; by left). lia.
Qed.

End Distinct.

(** X6: The lockup periods the first chart iterates over, and the row and column
    labels of the pivot, are the values of the column, each once, in strictly
    ascending order. *)
Theorem sorted_unique_ascending (xs : list Z) :
  Sorted Z.lt (sorted (unique xs))
  /\ NoDup (sorted (unique xs))
  /\ forall x, In x (sorted (unique xs)) <-> In x xs.
Proof.
  destruct (unique_from_spec [] xs) as [Hnd Hin]. fold (unique xs) in Hnd, Hin.
  pose proof (sort_by_perm id (unique xs)) as Hperm. fold (sorted (unique xs)) in Hperm.
  assert (NoDup (sorted (unique xs))) as Hnd' by (by rewrite Hperm).
  split; [|split; [done|]].
  - apply sorted_le_nodup_lt; [|done]. apply (sort_by_sorted id).
  - intros x. split.
    + intros Hx. apply (Permutation_in _ Hperm) in Hx. apply Hin in Hx. tauto.
    + intros Hx. eapply Permutation_in; [symmetry; exact Hperm|].
      apply Hin. split; [done|]. simpl. tauto.
Qed.

(** ** Slices of a table *)

(** X7: Selecting one lockup period and sorting by tokens keeps exactly the rows
    of that period, puts them in ascending order of the token amount, and
    keeps every row with its own derived value: the column of the slice is
    still the multiplier of its rows divided by 10000. *)
Theorem lockup_slice_aligned (k : Z) (df : DataFrame) :
  multiplier_decimal df = Some (truediv (column multiplier df) 10000) ->
  Permutation (rows (lockup_slice k df))
    (List.filter (fun row => lockup_days row =? k) (rows df))
  /\ Sorted (fun a b => tokens a <= tokens b) (rows (lockup_slice k df))
  /\ multiplier_decimal (lockup_slice k df)
     = Some (truediv (column multiplier (lockup_slice k df)) 10000).
Proof.
  intros Hcol. rewrite lockup_slice_rows.
  split; [apply sort_by_perm|]. split; [apply sort_by_sorted|].
  set (g := fun row => F64.div (F64.of_int (multiplier row)) (F64.of_int 10000)).
  assert (multiplier_decimal df = Some (map g (rows df))) as Hcol'
    by (rewrite Hcol; unfold truediv, column; by rewrite map_map).
  rewrite (lockup_slice_decimal k df g Hcol').
  unfold truediv, column. by rewrite map_map.
Qed.

Lemma lockup_slice_aligned_witness :
  multiplier_decimal (derived_frame grid_rows)
  = Some (truediv (column multiplier (derived_frame grid_rows)) 10000)
  /\ rows (lockup_slice 365 (derived_frame grid_rows))
     = [mkRow 100 365 15000; mkRow 200 365 15200]
  /\ Sorted (fun a b => tokens a <= tokens b) (rows (lockup_slice 365 (derived_frame grid_rows))).
Proof.
  split; [reflexivity|]. split; [reflexivity|].
  exact (proj1 (proj2 (lockup_slice_aligned 365 (derived_frame grid_rows) eq_refl))).
Defined.

(** ** Loading *)

Section Loading.

Variable read_csv : string -> result (list Row).

Lemma load_file_run (csv_content csv_file : option string) (path document : string)
    (table : list Row) (w : world) :
  truthy csv_file = Some path ->
  files w !! path = Some document ->
  read_csv document = Ok table ->
  read_multiplier_data read_csv csv_content csv_file w
  = (Ok (fresh (dom (heap w))),
     mkWorld (files w) (<[fresh (dom (heap w)) := mkFrame table None]> (heap w))
       (stdout w) (canvas w) (consumed w ++ [FromFile path])).
Proof.
  intros Hfile Hdoc Hparse. unfold read_multiplier_data. rewrite Hfile.
  unfold pd_read_csv, read_file, alloc. run_monad. by rewrite Hdoc, Hparse.
Qed.

Lemma fresh_is_new (w : world) : heap w !! fresh (dom (heap w)) = None.
Proof. apply not_elem_of_dom, is_fresh. Qed.

End Loading.

(** X8: A successful load creates a new table object: its identity is that of no
    object alive before, it holds the parsed rows and no derived column, and
    every other object is left as it was. *)
Theorem read_multiplier_data_new_table
    (read_csv : string -> result (list Row))
    (csv_content csv_file : option string) (path document : string)
    (table : list Row) (w : world) :
  truthy csv_file = Some path ->
  files w !! path = Some document ->
  read_csv document = Ok table ->
  exists r w',
    read_multiplier_data read_csv csv_content csv_file w = (Ok r, w')
    /\ heap w !! r = None
    /\ heap w' !! r = Some (mkFrame table None)
    /\ (forall r', r' <> r -> heap w' !! r' = heap w !! r')
    /\ files w' = files w /\ stdout w' = stdout w /\ canvas w' = canvas w.
Proof.
  intros Hfile Hdoc Hparse. eexists _, _.
  split; [by apply (load_file_run read_csv _ _ path document table)|].
  simpl. split; [apply fresh_is_new|]. split; [apply lookup_insert_eq|].
  split; [|done]. intros r' Hne. by rewrite lookup_insert_ne.
Qed.

Lemma read_multiplier_data_new_table_witness :
  truthy (Some "multipliers.csv"%string) = Some "multipliers.csv"%string
  /\ files (world_with_file "multipliers.csv" grid_csv) !! "multipliers.csv"%string
     = Some grid_csv
  /\ read_int_csv grid_csv = Ok grid_rows
  /\ exists r w',
       read_multiplier_data read_int_csv None (Some "multipliers.csv"%string)
         (world_with_file "multipliers.csv" grid_csv) = (Ok r, w')
       /\ heap w' !! r = Some (mkFrame grid_rows None).
Proof.
  assert (files (world_with_file "multipliers.csv" grid_csv) !! "multipliers.csv"%string
          = Some grid_csv) as Hdoc by reflexivity.
  assert (read_int_csv grid_csv = Ok grid_rows) as Hparse by (by vm_compute).
  split; [reflexivity|]. split; [exact Hdoc|]. split; [exact Hparse|].
  destruct (read_multiplier_data_new_table read_int_csv None
              (Some "multipliers.csv"%string) _ _ _ _ eq_refl Hdoc Hparse)
    as (r & w' & Hrun & _ & Hr & _).
  by exists r, w'.
Defined.

(** X9: Loading the same file twice gives two distinct table objects with the
    same rows, and deriving the column on the first leaves the second without
    it: the tables do not alias. *)
Theorem read_multiplier_data_twice
    (read_csv : string -> result (list Row))
    (csv_content csv_file : option string) (path document : string)
    (table : list Row) (w : world) :
  truthy csv_file = Some path ->
  files w !! path = Some document ->
  read_csv document = Ok table ->
  exists r1 r2 w1 w2,
    read_multiplier_data read_csv csv_content csv_file w = (Ok r1, w1)
    /\ read_multiplier_data read_csv csv_content csv_file w1 = (Ok r2, w2)
    /\ r1 <> r2
    /\ heap w2 !! r1 = Some (mkFrame table None)
    /\ heap w2 !! r2 = Some (mkFrame table None)
    /\ heap (snd (derive r1 w2)) !! r2 = Some (mkFrame table None).
Proof.
  intros Hfile Hdoc Hparse.
  pose proof (load_file_run read_csv csv_content csv_file path document table w
                Hfile Hdoc Hparse) as Hrun1.
  set (r1 := fresh (dom (heap w))) in *.
  set (w1 := mkWorld (files w) (<[r1 := mkFrame table None]> (heap w)) (stdout w) (canvas w)
               (consumed w ++ [FromFile path])) in *.
  pose proof (load_file_run read_csv csv_content csv_file path document table w1
                Hfile Hdoc Hparse) as Hrun2.
  set (r2 := fresh (dom (heap w1))) in *.
  assert (r1 <> r2) as Hne.
  { intros Heq. pose proof (fresh_is_new w1) as Hnew. fold r2 in Hnew.
    rewrite <- Heq in Hnew. simpl in Hnew. by rewrite lookup_insert_eq in Hnew. }
  eexists r1, r2, w1, _. split; [exact Hrun1|]. split; [exact Hrun2|].
  split; [exact Hne|]. simpl.
  assert (<[r2 := mkFrame table None]> (<[r1 := mkFrame table None]> (heap w)) !! r1
          = Some (mkFrame table None)) as H1
    by (rewrite lookup_insert_ne by done; apply lookup_insert_eq).
  split; [exact H1|]. split; [apply lookup_insert_eq|].
  erewrite derive_run by exact H1. simpl.
  rewrite lookup_insert_ne by done. apply lookup_insert_eq.
Qed.

Lemma read_multiplier_data_twice_witness :
  exists r1 r2 w1 w2,
    read_multiplier_data read_int_csv None (Some "multipliers.csv"%string)
      (world_with_file "multipliers.csv" grid_csv) = (Ok r1, w1)
    /\ read_multiplier_data read_int_csv None (Some "multipliers.csv"%string) w1 = (Ok r2, w2)
    /\ r1 <> r2.
Proof.
  destruct (read_multiplier_data_twice read_int_csv None (Some "multipliers.csv"%string)
              "multipliers.csv" grid_csv grid_rows
              (world_with_file "multipliers.csv" grid_csv) eq_refl eq_refl
              ltac:(by vm_compute))
    as (r1 & r2 & w1 & w2 & H1 & H2 & Hne & _).
  by exists r1, r2, w1, w2.
Defined.

(** X10: When the file is missing the loader raises [FileNotFoundError], and when
    the reader rejects the document its exception comes out unchanged; in both
    cases no table object is created. *)
Theorem read_multiplier_data_failure
    (read_csv : string -> result (list Row))
    (csv_content csv_file : option string) (path : string) (w : world) :
  truthy csv_file = Some path ->
  match files w !! path with
  | None =>
      read_multiplier_data read_csv csv_content csv_file w
      = (Raise (FileNotFoundError path),
         mkWorld (files w) (heap w) (stdout w) (canvas w) (consumed w ++ [FromFile path]))
  | Some document =>
      forall e, read_csv document = Raise e ->
        read_multiplier_data read_csv csv_content csv_file w
        = (Raise e,
           mkWorld (files w) (heap w) (stdout w) (canvas w) (consumed w ++ [FromFile path]))
  end.
Proof.
  intros Hfile. unfold read_multiplier_data. rewrite Hfile.
  unfold pd_read_csv, read_file, alloc. run_monad.
  destruct (files w !! path) as [document|]; [|done].
  intros e He. by rewrite He.
Qed.

Lemma read_multiplier_data_failure_witness :
  truthy (Some "multipliers.csv"%string) = Some "multipliers.csv"%string
  /\ read_multiplier_data read_int_csv (Some grid_csv) (Some "multipliers.csv"%string)
       empty_world
     = (Raise (FileNotFoundError "multipliers.csv"),
        mkWorld ∅ ∅ [] [] [FromFile "multipliers.csv"]).
Proof.
  split; [reflexivity|].
  exact (read_multiplier_data_failure read_int_csv (Some grid_csv)
           (Some "multipliers.csv"%string) "multipliers.csv" empty_world eq_refl).
Defined.

(** ** The top-level flow with a table *)

Section MainRuns.

Variable read_csv : string -> result (list Row).
Variable repr_int64 : Z -> string.

Lemma charts_only_draw (r : loc) : only_draws (line_chart r;; bonus_chart r;; heatmap r).
Proof.
  apply only_draws_bind; [apply line_chart_only_draws|intros _].
  apply only_draws_bind; [apply bonus_chart_only_draws|intros _].
  apply heatmap_only_draws.
Qed.

Lemma create_never_prints (r : loc) (w : world) :
  stdout (snd (create_multiplier_charts r w)) = stdout w
  /\ files (snd (create_multiplier_charts r w)) = files w
  /\ consumed (snd (create_multiplier_charts r w)) = consumed w.
Proof.
  destruct (heap w !! r) as [df|] eqn:Hr.
  - rewrite (create_after_derive r df w Hr).
    destruct (charts_only_draw r (after_derive r df w)) as (Hfiles & _ & Hout & Hsrc & _).
    by rewrite Hfiles, Hout, Hsrc.
  - unfold create_multiplier_charts, derive, deref, mbind, M_bind. by rewrite Hr.
Qed.

Lemma create_keeps_table (r : loc) (df : DataFrame) (w : world) :
  heap w !! r = Some df ->
  heap (snd (create_multiplier_charts r w)) !! r
  = Some (mkFrame (rows df) (Some (truediv (column multiplier df) 10000))).
Proof.
  intros Hr. rewrite (create_after_derive r df w Hr).
  destruct (charts_only_draw r (after_derive r df w)) as (_ & Hheap & _).
  rewrite Hheap. apply after_derive_lookup.
Qed.

Lemma charts_complete (r : loc) (df : DataFrame) (w : world) :
  heap w !! r = Some df ->
  Forall (fun row => 0 <= tokens row < 2 ^ 53) (rows df) ->
  renderable df ->
  exists w', create_multiplier_charts r w = (Ok tt, w').
Proof.
  intros Hr Hrange (Hfew & H365 & Hnd). rewrite (create_after_derive r df w Hr).
  set (df1 := mkFrame (rows df) (Some (truediv (column multiplier df) 10000))).
  pose proof (after_derive_lookup r df w) as H1. fold df1 in H1.
  set (w1 := after_derive r df w) in *.
  assert (rows df <> []) as Hne by (intros Hnil; rewrite Hnil in H365; by inversion H365).
  destruct (line_chart_ok r df1 Hrange _ w1 H1 eq_refl Hne Hfew) as [w2 E2].
  pose proof (chart_keeps_heap _ _ _ _ (line_chart_only_draws r) E2) as Hheap2.
  assert (heap w2 !! r = Some df1) as H2 by (by rewrite Hheap2).
  destruct (bonus_chart_ok r df1 Hrange w2 H2 eq_refl H365) as [w3 E3].
  pose proof (chart_keeps_heap _ _ _ _ (bonus_chart_only_draws r) E3) as Hheap3.
  assert (heap w3 !! r = Some df1) as H3 by (by rewrite Hheap3).
  destruct (heatmap_ok r df1 _ w3 H3 eq_refl Hnd) as [w4 E4].
  exists w4. unfold mbind, M_bind. by rewrite E2, E3, E4.
Qed.

(** The world after [print("Reading from CSV file...")]. *)
Lemma main_after_load (r : loc) (w w1 : world) :
  read_multiplier_data read_csv None (Some "multipliers.csv"%string) w = (Ok r, w1) ->
  main read_csv repr_int64 w
  = (create_multiplier_charts r;;
     print (String Str.newline "Summary Statistics:");;
     print (String.concat "" (repeat "="%string 50));;
     df ← deref r;
     print ("Token amounts tested: " +:+ list_str repr_int64 (sorted (unique (column tokens df))));;
     print ("Lockup periods tested: "
            +:+ list_str repr_int64 (sorted (unique (column lockup_days df))) +:+ " days");;
     print ("Multiplier range: " +:+ scalar_str (series_min (column multiplier df))
            +:+ " - " +:+ scalar_str (series_max (column multiplier df)));;
     print ("Max multiplier: "
            +:+ F64.format_fixed 3 (scalar_div (series_max (column multiplier df)) 10000)
            +:+ "x"))
      (mkWorld (files w1) (heap w1) (stdout w1 ++ ["Reading from CSV file..."%string])
         (canvas w1) (consumed w1)).
Proof.
  intros Hload. unfold main, try_except.
  unfold mbind at 1. unfold M_bind at 1.
  unfold mbind at 1. unfold M_bind at 1. rewrite Hload.
  reflexivity.
Qed.

End MainRuns.

(** X11: A load failure other than [FileNotFoundError] is not caught: [main] ends
    with that exception, having printed and drawn nothing. An empty
    multipliers.csv is such a run: pandas raises EmptyDataError on it. *)
Theorem main_load_error
    (read_csv : string -> result (list Row)) (repr_int64 : Z -> string)
    (e : exn) (w w' : world) :
  read_multiplier_data read_csv None (Some "multipliers.csv"%string) w = (Raise e, w') ->
  is_FileNotFoundError e = false ->
  main read_csv repr_int64 w = (Raise e, w')
  /\ stdout w' = stdout w /\ canvas w' = canvas w.
Proof.
  intros Hload Hother. split.
  - unfold main, try_except. unfold mbind at 1. unfold M_bind at 1.
    unfold mbind at 1. unfold M_bind at 1. rewrite Hload. by rewrite Hother.
  - pose proof (read_multiplier_data_frame read_csv None
                  (Some "multipliers.csv"%string) w) as H.
    rewrite Hload in H. simpl in H. tauto.
Qed.

Lemma main_load_error_witness :
  read_multiplier_data read_int_csv None (Some "multipliers.csv"%string)
    (world_with_file "multipliers.csv" EmptyString)
  = (Raise (EmptyDataError "No columns to parse from file"),
     mkWorld {[ "multipliers.csv"%string := EmptyString ]} ∅ [] []
       [FromFile "multipliers.csv"])
  /\ fst (main read_int_csv repr_plain (world_with_file "multipliers.csv" EmptyString))
     = Raise (EmptyDataError "No columns to parse from file")
  /\ stdout (snd (main read_int_csv repr_plain
                    (world_with_file "multipliers.csv" EmptyString))) = []
  /\ canvas (snd (main read_int_csv repr_plain
                    (world_with_file "multipliers.csv" EmptyString))) = [].
Proof.
  assert (read_multiplier_data read_int_csv None (Some "multipliers.csv"%string)
            (world_with_file "multipliers.csv" EmptyString)
          = (Raise (EmptyDataError "No columns to parse from file"),
             mkWorld {[ "multipliers.csv"%string := EmptyString ]}
               ∅ [] [] [FromFile "multipliers.csv"])) as Hload by (by vm_compute).
  split; [exact Hload|].
  destruct (main_load_error read_int_csv repr_plain _ _ _ Hload eq_refl) as [Hmain _].
  by rewrite Hmain.
Defined.

(** X12: When the renderer raises, [main] ends with that exception: the line
    "Reading from CSV file..." is the only one printed and no summary follows. *)
Theorem main_renderer_error
    (read_csv : string -> result (list Row)) (repr_int64 : Z -> string)
    (r : loc) (e : exn) (w w1 w2 : world) :
  read_multiplier_data read_csv None (Some "multipliers.csv"%string) w = (Ok r, w1) ->
  create_multiplier_charts r
    (mkWorld (files w1) (heap w1) (stdout w1 ++ ["Reading from CSV file..."%string])
       (canvas w1) (consumed w1))
  = (Raise e, w2) ->
  main read_csv repr_int64 w = (Raise e, w2)
  /\ stdout w2 = stdout w ++ ["Reading from CSV file..."%string].
Proof.
  intros Hload Hcharts. split.
  - rewrite (main_after_load read_csv repr_int64 r w w1 Hload).
    unfold mbind at 1. unfold M_bind at 1. by rewrite Hcharts.
  - pose proof (create_never_prints r
                  (mkWorld (files w1) (heap w1) (stdout w1 ++ ["Reading from CSV file..."%string])
                     (canvas w1) (consumed w1))) as (Hout & _).
    rewrite Hcharts in Hout. simpl in Hout. rewrite Hout.
    pose proof (read_multiplier_data_frame read_csv None
                  (Some "multipliers.csv"%string) w) as H.
    rewrite Hload in H. simpl in H. destruct H as (_ & Hout1 & _). by rewrite Hout1.
Qed.

Lemma main_renderer_error_witness :
  let document := Str.text ["tokens,lockup_days,multiplier"; "100,30,10000"]%string in
  exists r w1 w2,
    read_multiplier_data read_int_csv None (Some "multipliers.csv"%string)
      (world_with_file "multipliers.csv" document) = (Ok r, w1)
    /\ create_multiplier_charts r
         (mkWorld (files w1) (heap w1) (stdout w1 ++ ["Reading from CSV file..."%string])
            (canvas w1) (consumed w1))
       = (Raise (ValueError "Axis limits cannot be NaN or Inf"), w2)
    /\ main read_int_csv repr_plain (world_with_file "multipliers.csv" document)
       = (Raise (ValueError "Axis limits cannot be NaN or Inf"), w2).
Proof.
  intros document. eexists _, _, _.
  assert (forall r w1 w2 (Hload : read_multiplier_data read_int_csv None
            (Some "multipliers.csv"%string) (world_with_file "multipliers.csv" document)
            = (Ok r, w1))
            (Hcharts : create_multiplier_charts r
               (mkWorld (files w1) (heap w1) (stdout w1 ++ ["Reading from CSV file..."%string])
                  (canvas w1) (consumed w1))
             = (Raise (ValueError "Axis limits cannot be NaN or Inf"), w2)),
            main read_int_csv repr_plain (world_with_file "multipliers.csv" document)
            = (Raise (ValueError "Axis limits cannot be NaN or Inf"), w2)) as Huse.
  { intros r w1 w2 Hload Hcharts.
    exact (proj1 (main_renderer_error read_int_csv repr_plain r _ _ w1 w2 Hload Hcharts)). }
  split; [by vm_compute|]. split; [by vm_compute|].
  apply (Huse _ _ _ ltac:(by vm_compute) ltac:(by vm_compute)).
Defined.

(** X13: With the file in place, a document the reader accepts, token amounts in
    [0, 2^53) and a table the renderer can draw, [main] returns: it prints
    "Reading from CSV file...", draws the charts, and prints the six summary
    lines computed from the table as it was loaded; it reads the one file. *)
Theorem main_complete
    (read_csv : string -> result (list Row)) (repr_int64 : Z -> string)
    (document : string) (table : list Row) (w : world) :
  files w !! "multipliers.csv"%string = Some document ->
  read_csv document = Ok table ->
  Forall (fun row => 0 <= tokens row < 2 ^ 53) table ->
  renderable (mkFrame table None) ->
  exists w',
    main read_csv repr_int64 w = (Ok tt, w')
    /\ stdout w'
       = stdout w ++ "Reading from CSV file..."%string
                     :: summary_lines repr_int64 (mkFrame table None)
    /\ consumed w' = consumed w ++ [FromFile "multipliers.csv"]
    /\ files w' = files w.
Proof.
  intros Hdoc Hparse Hrange Hok.
  pose proof (load_file_run read_csv None (Some "multipliers.csv"%string) _ _ _ w
                eq_refl Hdoc Hparse) as Hload.
  set (r := fresh (dom (heap w))) in *.
  rewrite (main_after_load read_csv repr_int64 r w _ Hload).
  cbn [files heap stdout canvas consumed].
  set (wp := mkWorld (files w) (<[r := mkFrame table None]> (heap w))
               (stdout w ++ ["Reading from CSV file..."%string]) (canvas w)
               (consumed w ++ [FromFile "multipliers.csv"])).
  assert (heap wp !! r = Some (mkFrame table None)) as Hr by apply lookup_insert_eq.
  destruct (charts_complete r (mkFrame table None) wp Hr Hrange Hok) as [w2 Hcharts].
  pose proof (create_never_prints r wp) as (Hout & Hfiles & Hsrc).
  pose proof (create_keeps_table r _ wp Hr) as Hkept.
  rewrite Hcharts in Hout, Hfiles, Hsrc, Hkept. simpl in Hout, Hfiles, Hsrc, Hkept.
  eexists. split.
  - unfold mbind, M_bind, print, deref. rewrite Hcharts. simpl. rewrite Hkept. reflexivity.
  - simpl. rewrite Hout, Hsrc, Hfiles. unfold summary_lines, column. simpl.
    split; [|done]. by rewrite <- !app_assoc.
Qed.

Lemma main_complete_witness :
  files (world_with_file "multipliers.csv" grid_csv) !! "multipliers.csv"%string
  = Some grid_csv
  /\ read_int_csv grid_csv = Ok grid_rows
  /\ Forall (fun row => 0 <= tokens row < 2 ^ 53) grid_rows
  /\ renderable (mkFrame grid_rows None)
  /\ fst (main read_int_csv repr_plain (world_with_file "multipliers.csv" grid_csv)) = Ok tt.
Proof.
  assert (read_int_csv grid_csv = Ok grid_rows) as Hparse by (by vm_compute).
  assert (Forall (fun row => 0 <= tokens row < 2 ^ 53) grid_rows) as Hrange
    by (repeat constructor; simpl; lia).
  assert (renderable (mkFrame grid_rows None)) as Hok.
  { split; [vm_compute; lia|]. split; [right; left; reflexivity|].
    apply (bool_decide_unpack _). by vm_compute. }
  split; [reflexivity|]. split; [exact Hparse|]. split; [exact Hrange|]. split; [exact Hok|].
  destruct (main_complete read_int_csv repr_plain grid_csv grid_rows
              (world_with_file "multipliers.csv" grid_csv) eq_refl Hparse Hrange Hok)
    as (w' & Hmain & _).
  by rewrite Hmain.
Defined.

(** ** The extractor on its own output *)

Section Stripping.

Lemma lstrip_idem s : Str.lstrip (Str.lstrip s) = Str.lstrip s.
Proof.
  induction s as [|c s IH]; simpl; [done|].
  destruct (Str.isspace c) eqn:Hc; [done|]. simpl. by rewrite Hc.
Qed.

Lemma rstrip_idem s : Str.rstrip (Str.rstrip s) = Str.rstrip s.
Proof.
  induction s as [|c s IH]; simpl; [done|].
  destruct (Str.rstrip s) as [|d r] eqn:Hr.
  - destruct (Str.isspace c) eqn:Hc; simpl; [done|]. by rewrite Hc.
  - change (Str.rstrip (String c (String d r))) with
      (match Str.rstrip (String d r) with
       | EmptyString => if Str.isspace c then EmptyString else String c EmptyString
       | String _ _ as r' => String c r'
       end).
    by rewrite IH.
Qed.

Lemma rstrip_tail c s : Str.rstrip (String c s) = String c s -> Str.rstrip s = s.
Proof.
  simpl. destruct (Str.rstrip s) as [|d r] eqn:Hr.
  - destruct (Str.isspace c); [done|]. by intros [= <-].
  - by intros [= <-].
Qed.

Lemma rstrip_lstrip s : Str.rstrip s = s -> Str.rstrip (Str.lstrip s) = Str.lstrip s.
Proof.
  induction s as [|c s IH]; intros Hs; simpl; [done|].
  destruct (Str.isspace c); [|done]. apply IH. by apply rstrip_tail in Hs.
Qed.

Lemma strip_trimmed s :
  Str.lstrip (Str.strip s) = Str.strip s /\ Str.rstrip (Str.strip s) = Str.strip s.
Proof.
  unfold Str.strip. split; [apply lstrip_idem|].
  apply rstrip_lstrip, rstrip_idem.
Qed.

Lemma strip_fixed s : Str.lstrip s = s -> Str.rstrip s = s -> Str.strip s = s.
Proof. intros Hl Hr. unfold Str.strip. by rewrite Hr, Hl. Qed.

Lemma strip_idem s : Str.strip (Str.strip s) = Str.strip s.
Proof. destruct (strip_trimmed s) as [Hl Hr]. by apply strip_fixed. Qed.

Lemma contains_lstrip_inv c s :
  Str.contains c (Str.lstrip s) = true -> Str.contains c s = true.
Proof.
  induction s as [|d s IH]; simpl; [done|].
  destruct (Str.isspace d); [|done]. intros H. rewrite (IH H). apply orb_true_r.
Qed.

Lemma contains_rstrip_inv c s :
  Str.contains c (Str.rstrip s) = true -> Str.contains c s = true.
Proof.
  induction s as [|d s IH]; simpl; [done|].
  destruct (Str.rstrip s) as [|e r] eqn:Hr.
  - destruct (Str.isspace d); simpl; [done|]. rewrite orb_false_r. intros ->. done.
  - change (Str.contains c (String d (String e r))) with
      (Ascii.eqb d c || Str.contains c (String e r)).
    intros [->|H]%orb_true_iff; [done|]. rewrite (IH H). apply orb_true_r.
Qed.

Lemma contains_strip_inv c s :
  Str.contains c (Str.strip s) = true -> Str.contains c s = true.
Proof. intros H. by apply contains_rstrip_inv, contains_lstrip_inv. Qed.

End Stripping.

Section NumericLines.

Lemma csv_char_space c : csv_char c = true -> Str.isspace c = true -> c = Str.space.
Proof.
  destruct c as [[] [] [] [] [] [] [] []]; vm_compute; intros H1 H2;
    first [discriminate H1 | discriminate H2 | reflexivity].
Qed.

Lemma digits_of_cons c s :
  digits_of (String c s)
  = if Ascii.eqb c Str.comma || Ascii.eqb c Str.space then digits_of s
    else String c (digits_of s).
Proof.
  unfold digits_of. simpl.
  destruct (Ascii.eqb_spec c Str.comma) as [->|Hcomma]; simpl; [done|].
  by destruct (Ascii.eqb_spec c Str.space).
Qed.

Lemma digits_numeric s :
  Str.all_chars Str.isdigit_char (digits_of s) = true -> Str.all_chars csv_char s = true.
Proof.
  induction s as [|c s IH]; [done|]. rewrite digits_of_cons. simpl. unfold csv_char at 1.
  destruct (Ascii.eqb c Str.comma || Ascii.eqb c Str.space) eqn:Hsep.
  - intros H. rewrite (IH H). rewrite <- orb_assoc, Hsep. by rewrite orb_true_r.
  - simpl. intros [Hc H]%andb_true_iff. by rewrite Hc, (IH H).
Qed.

Lemma digits_of_lstrip s :
  Str.all_chars csv_char s = true -> digits_of (Str.lstrip s) = digits_of s.
Proof.
  induction s as [|c s IH]; [done|]. simpl. intros [Hc Hs]%andb_true_iff.
  destruct (Str.isspace c) eqn:Hspace; [|done].
  rewrite (csv_char_space c Hc Hspace), digits_of_cons. simpl. by apply IH.
Qed.

Lemma digits_of_rstrip s :
  Str.all_chars csv_char s = true -> digits_of (Str.rstrip s) = digits_of s.
Proof.
  induction s as [|c s IH]; [done|]. simpl. intros [Hc Hs]%andb_true_iff.
  specialize (IH Hs). rewrite digits_of_cons.
  destruct (Str.rstrip s) as [|d r] eqn:Hr.
  - rewrite <- IH. destruct (Str.isspace c) eqn:Hspace.
    + by rewrite (csv_char_space c Hc Hspace).
    + by rewrite digits_of_cons.
  - by rewrite digits_of_cons, IH.
Qed.

Lemma looks_numeric_chars line :
  looks_numeric line = true -> Str.all_chars csv_char line = true.
Proof.
  unfold looks_numeric. intros [_ Hdigits]%andb_true_iff. apply digits_numeric.
  fold (digits_of line) in Hdigits. unfold Str.isdigit in Hdigits.
  by destruct (digits_of line).
Qed.

Lemma all_chars_lstrip p s :
  Str.all_chars p s = true -> Str.all_chars p (Str.lstrip s) = true.
Proof.
  induction s as [|c s IH]; [done|]. simpl. intros [Hc Hs]%andb_true_iff.
  destruct (Str.isspace c); [by apply IH|]. simpl. by rewrite Hc, Hs.
Qed.

Lemma all_chars_rstrip p s :
  Str.all_chars p s = true -> Str.all_chars p (Str.rstrip s) = true.
Proof.
  induction s as [|c s IH]; [done|]. simpl. intros [Hc Hs]%andb_true_iff.
  specialize (IH Hs). destruct (Str.rstrip s) as [|d r].
  - destruct (Str.isspace c); [done|]. simpl. by rewrite Hc.
  - change (Str.all_chars p (String c (String d r)))
      with (p c && Str.all_chars p (String d r)). by rewrite Hc, IH.
Qed.

Lemma looks_numeric_strip line :
  looks_numeric line = true -> looks_numeric (Str.strip line) = true.
Proof.
  intros Hline. pose proof (looks_numeric_chars line Hline) as Hchars.
  revert Hline. unfold looks_numeric. fold (digits_of line) (digits_of (Str.strip line)).
  rewrite contains_strip by done. unfold Str.strip.
  rewrite digits_of_lstrip by (by apply all_chars_rstrip).
  by rewrite digits_of_rstrip.
Qed.

Lemma keeps_strip line : keeps line = true -> keeps (Str.strip line) = true.
Proof.
  unfold keeps. intros [Hnum|Hhead]%orb_true_iff.
  - by rewrite looks_numeric_strip.
  - unfold is_header in *. rewrite strip_idem, Hhead. apply orb_true_r.
Qed.

(** Every line the loop appends is a clean line. *)
Lemma kept_lines_clean (lines : list string) :
  Forall clean_line (map Str.strip (List.filter keeps lines)).
Proof.
  induction lines as [|line lines IH]; simpl; [constructor|].
  destruct (keeps line) eqn:Hline; [|done]. simpl. constructor; [|done].
  split; [by apply keeps_strip|apply strip_idem].
Qed.

End NumericLines.

Section SplitJoin.

Variable sep : ascii.

Lemma split_nonempty s : Str.split sep s <> [].
Proof.
  destruct s as [|c s]; simpl; [done|].
  destruct (Ascii.eqb c sep); [done|]. by destruct (Str.split sep s).
Qed.

Lemma split_without_sep x : Str.contains sep x = false -> Str.split sep x = [x].
Proof.
  induction x as [|c x IH]; simpl; [done|].
  intros [Hc Hx]%orb_false_iff. rewrite Hc. by rewrite (IH Hx).
Qed.

Lemma split_append x rest :
  Str.contains sep x = false ->
  Str.split sep (String.append x (String sep rest)) = x :: Str.split sep rest.
Proof.
  induction x as [|c x IH]; simpl.
  - intros _. by rewrite Ascii.eqb_refl.
  - intros [Hc Hx]%orb_false_iff. rewrite Hc. by rewrite (IH Hx).
Qed.

Lemma split_pieces s : Forall (fun piece => Str.contains sep piece = false) (Str.split sep s).
Proof.
  induction s as [|c s IH]; simpl; [by repeat constructor|].
  destruct (Ascii.eqb c sep) eqn:Hc; [by constructor|].
  destruct (Str.split sep s) as [|h t] eqn:Hs; [by destruct (split_nonempty s)|].
  inversion IH as [|? ? Hh Ht]; subst. constructor; [|done].
  simpl. by rewrite Hc, Hh.
Qed.

Lemma join_cons x y l :
  Str.join sep (x :: y :: l) = String.append x (String sep (Str.join sep (y :: l))).
Proof. reflexivity. Qed.

(** Splitting what was joined gives the pieces back. *)
Lemma split_join (l : list string) :
  l <> [] ->
  Forall (fun piece => Str.contains sep piece = false) l ->
  Str.split sep (Str.join sep l) = l.
Proof.
  induction l as [|x l IH]; [done|]. intros _ Hall.
  inversion Hall as [|? ? Hx Hl]; subst.
  destruct l as [|y l]; [by apply split_without_sep|].
  rewrite join_cons, split_append by done. by rewrite IH.
Qed.

End SplitJoin.

Section StripJoin.

Lemma lstrip_length s : (String.length (Str.lstrip s) <= String.length s)%nat.
Proof.
  induction s as [|c s IH]; simpl; [done|]. destruct (Str.isspace c); simpl; lia.
Qed.

Lemma lstrip_head c s : Str.lstrip (String c s) = String c s -> Str.isspace c = false.
Proof.
  simpl. destruct (Str.isspace c); [|done]. intros Heq.
  pose proof (lstrip_length s) as Hlen. rewrite Heq in Hlen. simpl in Hlen. lia.
Qed.

Lemma lstrip_append x y :
  Str.lstrip x = x -> x <> EmptyString -> Str.lstrip (String.append x y) = String.append x y.
Proof.
  destruct x as [|c x]; [done|]. intros Hx%lstrip_head _. simpl. by rewrite Hx.
Qed.

Lemma rstrip_append x y :
  Str.rstrip y = y -> y <> EmptyString -> Str.rstrip (String.append x y) = String.append x y.
Proof.
  intros Hy Hne. induction x as [|c x IH]; [done|].
  change (String.append (String c x) y) with (String c (String.append x y)).
  simpl. rewrite IH.
  destruct (String.append x y) as [|d r] eqn:Happ; [|done].
  destruct x; [simpl in Happ; by subst|discriminate Happ].
Qed.

Lemma rstrip_join (l : list string) :
  l <> [] ->
  Forall (fun line => Str.rstrip line = line /\ line <> EmptyString) l ->
  Str.rstrip (Str.join Str.newline l) = Str.join Str.newline l
  /\ Str.join Str.newline l <> EmptyString.
Proof.
  induction l as [|x l IH]; [done|]. intros _ Hall.
  inversion Hall as [|? ? [Hx Hne] Hl]; subst.
  destruct l as [|y l]; [done|].
  destruct (IH ltac:(done) Hl) as [Hjoin Hjne]. rewrite join_cons. split.
  - apply rstrip_append; [|done]. simpl. rewrite Hjoin.
    by destruct (Str.join Str.newline (y :: l)).
  - by destruct x.
Qed.

Lemma strip_join (l : list string) :
  l <> [] ->
  Forall (fun line => Str.strip line = line /\ line <> EmptyString) l ->
  Str.strip (Str.join Str.newline l) = Str.join Str.newline l.
Proof.
  intros Hne Hall.
  assert (Forall (fun line => Str.lstrip line = line /\ Str.rstrip line = line
                              /\ line <> EmptyString) l) as Hall'.
  { eapply Forall_impl; [exact Hall|]. intros line [Hstrip Hline]. simpl.
    destruct (strip_trimmed line) as [Hl Hr]. rewrite Hstrip in Hl, Hr. done. }
  apply strip_fixed.
  - destruct l as [|x l]; [done|]. inversion Hall' as [|? ? (Hx & _ & Hxne) _]; subst.
    destruct l as [|y l]; [done|]. rewrite join_cons. by apply lstrip_append.
  - apply rstrip_join; [done|].
    eapply Forall_impl; [exact Hall'|]. by intros line (_ & Hr & Hline).
Qed.

End StripJoin.

Section ExtractorOutput.

Lemma filter_all {A} (p : A -> bool) (l : list A) :
  Forall (fun x => p x = true) l -> List.filter p l = l.
Proof. induction 1 as [|x l Hx _ IH]; simpl; [done|]. by rewrite Hx, IH. Qed.

Lemma map_fixed {A} (f : A -> A) (l : list A) :
  Forall (fun x => f x = x) l -> map f l = l.
Proof. induction 1 as [|x l Hx _ IH]; simpl; [done|]. by rewrite Hx, IH. Qed.

Lemma kept_lines_one_line (lines : list string) :
  Forall (fun line => Str.contains Str.newline line = false) lines ->
  Forall (fun line => Str.contains Str.newline line = false)
    (map Str.strip (List.filter keeps lines)).
Proof.
  induction 1 as [|line lines Hline _ IH]; simpl; [constructor|].
  destruct (keeps line); [|done]. simpl. constructor; [|done].
  destruct (Str.contains Str.newline (Str.strip line)) eqn:Hc; [|done].
  apply contains_strip_inv in Hc. congruence.
Qed.

Lemma clean_line_nonempty line : clean_line line -> line <> EmptyString.
Proof. intros [Hkeeps _] ->. discriminate Hkeeps. Qed.

(** The lines the extractor keeps, before they are joined. *)
Lemma parse_forge_output_lines (text : string) :
  exists kept,
    parse_forge_output text = Str.join Str.newline kept
    /\ Forall clean_line kept
    /\ Forall (fun line => Str.contains Str.newline line = false) kept.
Proof.
  exists (map Str.strip (List.filter keeps (Str.split Str.newline (Str.strip text)))).
  split; [unfold parse_forge_output; by rewrite scan_lines|].
  split; [apply kept_lines_clean|]. apply kept_lines_one_line, split_pieces.
Qed.

Lemma clean_lines_reparse (kept : list string) :
  kept <> [] ->
  Forall clean_line kept ->
  Forall (fun line => Str.contains Str.newline line = false) kept ->
  Str.split Str.newline (Str.strip (Str.join Str.newline kept)) = kept.
Proof.
  intros Hne Hclean Hone. rewrite strip_join; [by apply split_join|done|].
  eapply Forall_impl; [exact Hclean|]. intros line Hline. simpl.
  split; [apply Hline|by apply clean_line_nonempty].
Qed.

End ExtractorOutput.

(** X14: The extractor's output is clean CSV text: it is empty, or each of its
    lines is the header or a line of digits, commas and spaces with at least
    one comma and one digit, and no line has surrounding whitespace. *)
Theorem parse_forge_output_clean (text : string) :
  parse_forge_output text = EmptyString
  \/ Forall (fun line => (line = header \/ looks_numeric line = true)
                         /\ Str.strip line = line)
       (Str.split Str.newline (parse_forge_output text)).
Proof.
  destruct (parse_forge_output_lines text) as (kept & -> & Hclean & Hone).
  destruct kept as [|first kept]; [by left|]. right.
  rewrite split_join by done.
  eapply Forall_impl; [exact Hclean|]. intros line [Hkeeps Hstrip]. simpl.
  split; [|done]. unfold keeps in Hkeeps.
  apply orb_true_iff in Hkeeps as [Hnum|Hhead]; [by right|left].
  unfold is_header in Hhead. apply String.eqb_eq in Hhead. congruence.
Qed.

(** X15: Running the extractor on its own output changes nothing. *)
Theorem parse_forge_output_idempotent (text : string) :
  parse_forge_output (parse_forge_output text) = parse_forge_output text.
Proof.
  destruct (parse_forge_output_lines text) as (kept & -> & Hclean & Hone).
  destruct kept as [|first kept]; [by vm_compute|].
  unfold parse_forge_output at 1. rewrite scan_lines. simpl app.
  rewrite clean_lines_reparse by done.
  rewrite filter_all by (eapply Forall_impl; [exact Hclean|]; by intros line [Hk _]).
  by rewrite map_fixed by (eapply Forall_impl; [exact Hclean|]; by intros line [_ Hs]).
Qed.

(** X16: A line holding any character that is not a digit, a comma, a space or
    other whitespace, and that does not occur in the header, is dropped: so
    are lines with a minus sign, a decimal point or a quote. *)
Theorem keeps_rejects_foreign_character (c : ascii) (line : string) :
  Str.isdigit_char c = false ->
  Str.isspace c = false ->
  Ascii.eqb c Str.comma = false ->
  Str.contains c header = false ->
  Str.contains c line = true ->
  keeps line = false.
Proof.
  intros Hdigit Hspace Hcomma Hhead Hline.
  assert (Ascii.eqb c Str.space = false) as Hsp.
  { destruct (Ascii.eqb_spec c Str.space) as [->|]; [discriminate Hspace|done]. }
  unfold keeps. apply orb_false_iff; split.
  - unfold looks_numeric. apply andb_false_iff; right.
    apply isdigit_contains with c; [|done]. by rewrite !contains_remove.
  - unfold is_header. apply String.eqb_neq. intros Heq.
    assert (Str.contains c (Str.strip line) = true) as H by (by rewrite contains_strip).
    rewrite Heq in H. congruence.
Qed.

Lemma keeps_rejects_foreign_character_witness :
  keeps "-5,3" = false
  /\ parse_forge_output (Str.text ["100,30,10000"; "-5,3"; "7,8"]%string)
     = Str.text ["100,30,10000"; "7,8"]%string.
Proof.
  split; [|by vm_compute].
  apply (keeps_rejects_foreign_character (ascii_of_nat 45)); reflexivity.
Defined.

(** X17: Assigning the derived column a second time changes nothing: the column is
    replaced by the same values, not added again. *)
Theorem derive_twice (r : loc) (df : DataFrame) (w : world) :
  heap w !! r = Some df ->
  derive r (snd (derive r w)) = (Ok tt, snd (derive r w)).
Proof.
  intros Hr. rewrite (derive_run r df w Hr). simpl.
  erewrite derive_run by apply lookup_insert_eq. simpl.
  by rewrite insert_insert_eq.
Qed.

Lemma derive_twice_witness :
  heap (world_with_table grid_rows) !! 0%nat = Some (mkFrame grid_rows None)
  /\ derive 0%nat (snd (derive 0%nat (world_with_table grid_rows)))
     = (Ok tt, snd (derive 0%nat (world_with_table grid_rows))).
Proof.
  split; [reflexivity|].
  exact (derive_twice 0%nat (mkFrame grid_rows None) (world_with_table grid_rows) eq_refl).
Defined.

(** ** The heatmap, call by call *)

Section HeatmapCells.

Lemma for_each_emits {A} (calls : A -> list plt_call) (body : A -> M unit) (xs : list A) :
  (forall x, In x xs -> forall w,
     body x w
     = (Ok tt, mkWorld (files w) (heap w) (stdout w) (canvas w ++ calls x) (consumed w))) ->
  forall w,
    for_each xs body w
    = (Ok tt, mkWorld (files w) (heap w) (stdout w) (canvas w ++ flat_map calls xs)
                (consumed w)).
Proof.
  induction xs as [|x xs IH]; intros Hbody w; simpl.
  - rewrite app_nil_r. by destruct w.
  - unfold mbind, M_bind. rewrite Hbody by (by left).
    rewrite IH by (intros y Hy; apply Hbody; by right). simpl.
    by rewrite <- app_assoc.
Qed.

Lemma flat_map_constant_length {A B} (f : A -> list B) (l : list A) (m : nat) :
  (forall x, length (f x) = m) -> length (flat_map f l) = (length l * m)%nat.
Proof.
  intros Hf. induction l as [|x l IH]; simpl; [done|].
  by rewrite length_app, Hf, IH.
Qed.

(** The grid of a pivot is rectangular: one line per row label, one cell per
    column label. *)
Lemma pivot_shape (df : DataFrame) (p : Pivot) :
  pivot df = Ok p ->
  length (pivot_values p) = length (pivot_index p)
  /\ Forall (fun line => length line = length (pivot_columns p)) (pivot_values p).
Proof.
  unfold pivot. destruct (multiplier_decimal df) as [col|]; [|done].
  destruct (size _ <? length _)%nat; [done|]. intros [= <-]. simpl.
  split; [by rewrite length_map|].
  apply List.Forall_map, List.Forall_forall. intros t _. by rewrite length_map.
Qed.

Lemma grid_at_cell (values : list (list float)) (width i j : nat) :
  Forall (fun line => length line = width) values ->
  (i < length values)%nat -> (j < width)%nat ->
  returns (grid_at values i j) (grid_cell values i j).
Proof.
  intros Hshape Hi Hj.
  destruct (lookup_lt_is_Some_2 values i Hi) as [line Hline].
  assert (length line = width) as Hwidth.
  { rewrite List.Forall_forall in Hshape. apply Hshape.
    apply list_elem_of_In. by apply list_elem_of_lookup_2 with i. }
  destruct (lookup_lt_is_Some_2 line j ltac:(lia)) as [v Hv].
  unfold grid_cell. rewrite Hline, Hv. simpl. by apply returns_grid_at with line.
Qed.

End HeatmapCells.

(** X18: The heatmap, call by call, for a table whose pivot succeeds: the grid is
    shown, the column and row ticks carry the lockup periods and the token
    amounts of the pivot, and every cell of the grid is annotated, line by
    line, with its value to 3 decimals: one annotation per row label and
    column label. *)
Theorem heatmap_cells (r : loc) (df : DataFrame) (p : Pivot) (w : world) :
  heap w !! r = Some df ->
  pivot df = Ok p ->
  heatmap r w
  = (Ok tt,
     mkWorld (files w) (heap w) (stdout w)
       (canvas w ++
        [ plt_figure 12 8; plt_imshow (pivot_values p);
          plt_xticks (seq 0 (length (pivot_columns p))) (pivot_columns p);
          plt_yticks (seq 0 (length (pivot_index p))) (pivot_index p);
          plt_style "xlabel"; plt_style "ylabel"; plt_style "title"; plt_style "colorbar";
          plt_style "set_label" ]
        ++ annotations p ++ [plt_style "tight_layout"; plt_show])
       (consumed w))
  /\ length (annotations p) = (length (pivot_index p) * length (pivot_columns p))%nat.
Proof.
  intros Hr Hpivot. destruct (pivot_shape df p Hpivot) as [Hlines Hwidth]. split.
  - unfold heatmap. rewrite (bind_deref r df) by done. rewrite Hpivot.
    unfold mbind, M_bind, plt, lift. simpl.
    rewrite (for_each_emits
               (fun i => map (fun j => plt_text j i
                                         (F64.format_fixed 3 (grid_cell (pivot_values p) i j)))
                             (seq 0 (length (pivot_columns p))))).
    + simpl. unfold annotations. by rewrite <- !app_assoc.
    + intros i Hi%in_seq w1. apply for_each_emit. intros j Hj%in_seq w2.
      rewrite (grid_at_cell (pivot_values p) (length (pivot_columns p)) i j) by (done || lia).
      reflexivity.
  - unfold annotations. rewrite (flat_map_constant_length _ _ (length (pivot_columns p))).
    + by rewrite length_seq.
    + intros i. by rewrite length_map, length_seq.
Qed.

Lemma heatmap_cells_witness :
  heap (after_derive 0%nat (mkFrame incomplete_rows None) (world_with_table incomplete_rows))
    !! 0%nat = Some (derived_frame incomplete_rows)
  /\ pivot (derived_frame incomplete_rows)
     = Ok (mkPivot [100; 200] [30; 365]
             [[F64.literal 10000 4; F64.literal 15000 4]; [F64.literal 10050 4; F64.nan]])
  /\ canvas (snd (heatmap 0%nat
                   (after_derive 0%nat (mkFrame incomplete_rows None)
                      (world_with_table incomplete_rows)))) !! 12%nat
     = Some (plt_text 1 1 "nan").
Proof.
  assert (heap (after_derive 0%nat (mkFrame incomplete_rows None)
                  (world_with_table incomplete_rows)) !! 0%nat
          = Some (derived_frame incomplete_rows)) as Hr by reflexivity.
  assert (pivot (derived_frame incomplete_rows)
          = Ok (mkPivot [100; 200] [30; 365]
                  [[F64.literal 10000 4; F64.literal 15000 4]; [F64.literal 10050 4; F64.nan]]))
    as Hpivot by (by vm_compute).
  split; [exact Hr|]. split; [exact Hpivot|].
  rewrite (proj1 (heatmap_cells 0%nat _ _ _ Hr Hpivot)). reflexivity.
Defined.
